(** * stOLAS APR script: block locator, price-per-share reader, APR figures

    A shallow embedding of [scripts/stolas_apr.py] and the proofs of its
    specification.  Python integers are [Z]; Python floats are the IEEE 754
    binary64 numbers of [PrimFloat]; exceptions are an error monad; the node
    behind [web3] is a record of the answers it gives. *)

From Stdlib Require Import ZArith Lia List Bool String DecimalString Floats.
From Equations Require Import Equations.
Import ListNotations.

Local Open Scope Z_scope.

Set Warnings "-inexact-float".

(** ** The fragment of Python the script relies on *)

Module Py.

(** Exceptions the script can end with.  [RuntimeError] and [SystemExit] are
    raised by the script itself; [ZeroDivisionError] and [OverflowError] by
    the arithmetic operators; [ValueError] by [datetime]; [Web3Exception]
    stands for any failure of a node query. *)
Inductive exception : Type :=
| RuntimeError (msg : string)
| SystemExit (code : Z)
| ZeroDivisionError
| OverflowError
| ValueError
| Web3Exception.

Inductive result (A : Type) : Type :=
| Ok (a : A)
| Raise (e : exception).

Arguments Ok {A} a.
Arguments Raise {A} e.

Definition bind {A B : Type} (r : result A) (k : A -> result B) : result B :=
  match r with
  | Ok a => k a
  | Raise e => Raise e
  end.

(** [str(n)] for an integer, as an f-string interpolates it. *)
Definition str (n : Z) : string := NilZero.string_of_int (Z.to_int n).

(** An [int] taken exactly, as a mantissa times two to the zero. *)
Definition int_to_SF (a : Z) : spec_float :=
  match a with
  | Z0 => S754_zero false
  | Zpos p => S754_finite false p 0
  | Zneg p => S754_finite true p 0
  end.

(** The quotient of two integers rounded once, to nearest even. *)
Definition int_quotient (a b : Z) : spec_float :=
  SFdiv prec emax (int_to_SF a) (int_to_SF b).

(** [a / b] on two [int]s: [ZeroDivisionError] for a zero divisor,
    [OverflowError] when the rounded quotient is too large for a float. *)
Definition int_truediv (a b : Z) : result float :=
  if b =? 0 then Raise ZeroDivisionError
  else
    match int_quotient a b with
    | S754_infinity _ => Raise OverflowError
    | q => Ok (SF2Prim q)
    end.

(** [float(a)], the conversion applied to the [int] operand of a mixed
    operation. *)
Definition float_of_int (a : Z) : result float :=
  match binary_normalize prec emax a 0 false with
  | S754_infinity _ => Raise OverflowError
  | q => Ok (SF2Prim q)
  end.

(** [x / y] on two [float]s. *)
Definition float_truediv (x y : float) : result float :=
  if PrimFloat.eqb y 0%float then Raise ZeroDivisionError
  else Ok (PrimFloat.div x y).

(** [x / n] and [x * n] with a [float] on the left and an [int] on the
    right: the [int] is converted first. *)
Definition float_truediv_int (x : float) (n : Z) : result float :=
  bind (float_of_int n) (fun y => float_truediv x y).

Definition float_mul_int (x : float) (n : Z) : result float :=
  bind (float_of_int n) (fun y => Ok (PrimFloat.mul x y)).

(** [datetime], kept as the instant it denotes. *)
Record datetime : Type := { unix_seconds : Z }.

(** The instants of [datetime.min] and [datetime.max] in UTC, years 1 to
    9999. *)
Definition DATETIME_MIN : Z := -62135596800.
Definition DATETIME_MAX : Z := 253402300799.

(** [datetime.fromtimestamp(ts, tz=timezone.utc)] for an [int]; outside the
    years 1 to 9999 it raises ([ValueError] stands for the exception, which
    is [OverflowError] or [OSError] on some platforms). *)
Definition datetime_fromtimestamp_utc (ts : Z) : result datetime :=
  if (DATETIME_MIN <=? ts) && (ts <=? DATETIME_MAX)
  then Ok {| unix_seconds := ts |}
  else Raise ValueError.

End Py.

Import Py.

Notation "x <- c1 ;; c2" := (bind c1 (fun x => c2))
  (at level 61, c1 at next level, right associativity).

(** ** The node and the contract, as the script sees them *)

Record Block : Type := { number : Z; timestamp : Z }.

(** A block identifier: a height, or the string ["latest"]. *)
Inductive BlockId : Type :=
| by_number (n : Z)
| latest_id.

(** [w3]: whether the provider answers, the chain height, and the block
    lookup, which has no answer for a block the node does not have. *)
Record Web3 : Type := {
  is_connected : bool;
  block_number : Z;
  eth_get_block : BlockId -> option Block
}.

(** The two views of [STOLAS_ABI] the script calls, each at a block. *)
Record Contract : Type := {
  totalAssets : Z -> option Z;
  totalSupply : Z -> option Z
}.

(** A node query: its answer, or the exception of the failed call. *)
Definition call {A : Type} (answer : option A) : result A :=
  match answer with
  | Some a => Ok a
  | None => Raise Web3Exception
  end.

Definition get_block (w3 : Web3) (id : BlockId) : result Block :=
  call (eth_get_block w3 id).

(** ** Configuration *)

Definition LOOKBACK_DAYS : Z := 7.
Definition LOOKBACK_SECONDS : Z := LOOKBACK_DAYS * 24 * 60 * 60.

(** ** Helpers *)

Definition to_datetime (ts : Z) : result datetime :=
  datetime_fromtimestamp_utc ts.

Definition inspect {A : Type} (a : A) : { b : A | a = b } := exist _ a eq_refl.

(** The [while low <= high] loop of [find_block_by_timestamp], from the state
    [(low, high, best)].  [(low + high) // 2] is [Z.div], which rounds down as
    [//] does.  The second component of the result is the list of the heights
    handed to [get_block], in the order of the calls. *)
Equations? search_loop (w3 : Web3) (target_ts low high best : Z)
  : result Z * list Z by wf (Z.to_nat (high + 1 - low)) lt :=
search_loop w3 target_ts low high best with inspect (low <=? high) := {
  | exist _ false _ => (Ok best, [])
  | exist _ true Hle with inspect ((low + high) / 2) := {
    | exist _ mid Hmid with get_block w3 (by_number mid) := {
      | Raise e => (Raise e, [mid])
      | Ok block with timestamp block >=? target_ts := {
          | true =>
              let r := search_loop w3 target_ts low (mid - 1) mid in
              (fst r, mid :: snd r)
          | false =>
              let r := search_loop w3 target_ts (mid + 1) high best in
              (fst r, mid :: snd r) } } } }.
Proof.
  all: apply Z.leb_le in Hle.
  all: assert (low <= (low + high) / 2) by (apply Z.div_le_lower_bound; lia).
  all: assert ((low + high) / 2 <= high) by (apply Z.div_le_upper_bound; lia).
  all: lia.
Qed.

Definition find_block_run (w3 : Web3) (target_ts : Z) : result Z * list Z :=
  let latest := block_number w3 in
  let low := 1 in
  let high := latest in
  let best := latest in
  search_loop w3 target_ts low high best.

Definition find_block_by_timestamp (w3 : Web3) (target_ts : Z) : result Z :=
  fst (find_block_run w3 target_ts).

(** The timestamp probes [find_block_by_timestamp] issues. *)
Definition find_block_probes (w3 : Web3) (target_ts : Z) : list Z :=
  snd (find_block_run w3 target_ts).

Definition get_pps_at_block (contract : Contract) (block_number : Z)
  : result float :=
  total_assets <- call (totalAssets contract block_number) ;;
  total_supply <- call (totalSupply contract block_number) ;;
  if total_supply =? 0 then
    Raise (RuntimeError ("totalSupply == 0 at block " ++ str block_number
                           ++ ", PPS undefined"))
  else
    pps <- int_truediv total_assets total_supply ;;
    Ok pps.

(** ** [main] *)

(** The figures [main] computes once both samples are read. *)
Record Figures : Type := {
  change_ratio : float;
  change_pct : float;
  apr_7d_window : float;
  days_interval : float;
  apr_real : float
}.

(** The part of [main] from the test of [pps_past] to [apr_real]. *)
Definition main_apr (pps_now pps_past : float) (latest_ts past_ts_actual : Z)
  : result Figures :=
  if PrimFloat.eqb pps_past 0%float then
    Raise (RuntimeError "pps_past == 0, APR cannot be computed")
  else
    change_ratio <- float_truediv pps_now pps_past ;;
    change_pct <- float_mul_int (change_ratio - 1.0)%float 100 ;;
    yearly_factor_7d <- float_truediv_int 365.0%float LOOKBACK_DAYS ;;
    let apr_7d_window :=
      ((change_ratio - 1.0) * yearly_factor_7d * 100.0)%float in
    let dt_seconds := latest_ts - past_ts_actual in
    if dt_seconds <=? 0 then
      Raise (RuntimeError "Non-positive time interval between blocks")
    else
      days_interval <- int_truediv dt_seconds (24 * 60 * 60) ;;
      yearly_factor_real <- float_truediv 365.0%float days_interval ;;
      let apr_real :=
        ((change_ratio - 1.0) * yearly_factor_real * 100.0)%float in
      Ok {| change_ratio := change_ratio;
            change_pct := change_pct;
            apr_7d_window := apr_7d_window;
            days_interval := days_interval;
            apr_real := apr_real |}.

(** What a run of [main] reports. *)
Record Report : Type := {
  latest_number : Z;
  target_ts : Z;
  past_block_num : Z;
  past_ts_actual : Z;
  pps_now : float;
  pps_past : float;
  figures : Figures
}.

Definition main (w3 : Web3) (stolas : Contract) : result Report :=
  if negb (is_connected w3) then Raise (SystemExit 1)
  else
    latest_block <- get_block w3 latest_id ;;
    let latest_number := number latest_block in
    let latest_ts := timestamp latest_block in
    latest_dt <- to_datetime latest_ts ;;
    let target_ts := latest_ts - LOOKBACK_SECONDS in
    target_dt <- to_datetime target_ts ;;
    past_block_num <- find_block_by_timestamp w3 target_ts ;;
    past_block <- get_block w3 (by_number past_block_num) ;;
    let past_ts_actual := timestamp past_block in
    past_dt_actual <- to_datetime past_ts_actual ;;
    pps_now <- get_pps_at_block stolas latest_number ;;
    pps_past <- get_pps_at_block stolas past_block_num ;;
    figures <- main_apr pps_now pps_past latest_ts past_ts_actual ;;
    Ok {| latest_number := latest_number;
          target_ts := target_ts;
          past_block_num := past_block_num;
          past_ts_actual := past_ts_actual;
          pps_now := pps_now;
          pps_past := pps_past;
          figures := figures |}.

(** ** The formulas of the specification *)

Module Spec.

(** An integer as a float, and a quotient of two integers as a float. *)
Definition of_int (a : Z) : float :=
  SF2Prim (binary_normalize prec emax a 0 false).

Definition ratio (a b : Z) : float := SF2Prim (int_quotient a b).

Definition ratio_change (ratio_now ratio_past : float) : float :=
  (ratio_now / ratio_past)%float.

Definition pct_change (ratio_now ratio_past : float) : float :=
  ((ratio_change ratio_now ratio_past - 1) * 100)%float.

Definition apr_nominal (ratio_now ratio_past : float) (lookback_days : Z)
  : float :=
  ((ratio_change ratio_now ratio_past - 1)
   * (365 / of_int lookback_days) * 100)%float.

Definition elapsed_days_actual (elapsed_seconds_actual : Z) : float :=
  ratio elapsed_seconds_actual 86400.

Definition apr_actual (ratio_now ratio_past : float)
  (elapsed_seconds_actual : Z) : float :=
  ((ratio_change ratio_now ratio_past - 1)
   * (365 / elapsed_days_actual elapsed_seconds_actual) * 100)%float.

(** The result of the specification's [APRCalculator]. *)
Definition APRCalculator (ratio_now ratio_past : float) (lookback_days : Z)
  (elapsed_seconds_actual : Z) : Figures :=
  {| change_ratio := ratio_change ratio_now ratio_past;
     change_pct := pct_change ratio_now ratio_past;
     apr_7d_window := apr_nominal ratio_now ratio_past lookback_days;
     days_interval := elapsed_days_actual elapsed_seconds_actual;
     apr_real := apr_actual ratio_now ratio_past elapsed_seconds_actual |}.

End Spec.

(** ** Vocabulary of the contracts *)

(** A value an ABI output of type [uint256] can hold. *)
Definition uint256 (v : Z) : Prop := 0 <= v < 2 ^ 256.

(** The node has the blocks [1 .. block_number w3], and [ts] gives their
    timestamps. *)
Definition serves (w3 : Web3) (ts : Z -> Z) : Prop :=
  forall n, 1 <= n <= block_number w3 ->
    exists b, eth_get_block w3 (by_number n) = Some b /\ timestamp b = ts n.

(** [ts] does not decrease over the blocks [1 .. latest]. *)
Definition non_decreasing (ts : Z -> Z) (latest : Z) : Prop :=
  forall a b, 1 <= a -> a <= b -> b <= latest -> ts a <= ts b.

(** ** The scenario of the specification: ten blocks, ten seconds apart *)

Module Scenario.

Definition timestamps (n : Z) : Z := 90 + 10 * n.

Definition w3 : Web3 := {|
  is_connected := true;
  block_number := 10;
  eth_get_block := fun id =>
    match id with
    | by_number n =>
        if (0 <=? n) && (n <=? 10)
        then Some {| number := n; timestamp := timestamps n |}
        else None
    | latest_id => Some {| number := 10; timestamp := 190 |}
    end
|}.

Definition stolas : Contract := {|
  totalAssets := fun n =>
    if n =? 10 then Some 200 else if n =? 6 then Some 150 else None;
  totalSupply := fun n =>
    if (n =? 10) || (n =? 6) then Some 100 else None
|}.

(** A chain that has its genesis block only. *)
Definition genesis_only : Web3 := {|
  is_connected := true;
  block_number := 0;
  eth_get_block := fun id =>
    match id with
    | by_number 0 | latest_id => Some {| number := 0; timestamp := 90 |}
    | by_number _ => None
    end
|}.

(** A vault whose assets are gone while shares remain. *)
Definition emptied : Contract := {|
  totalAssets := fun _ => Some 0;
  totalSupply := fun _ => Some 100
|}.

End Scenario.

(** ** Vocabulary of whole runs *)


(** The block the node gives for ["latest"] is the block at the chain
    height, with the timestamp [ts] gives it. *)
Definition tip_consistent (w3 : Web3) (ts : Z -> Z) : Prop :=
  exists b, eth_get_block w3 latest_id = Some b /\
            number b = block_number w3 /\
            timestamp b = ts (block_number w3).


(** Two nodes with the same height and the same blocks [1 .. height]. *)
Definition same_chain (w3 w3' : Web3) : Prop :=
  block_number w3 = block_number w3' /\
  forall n, 1 <= n <= block_number w3 ->
    eth_get_block w3 (by_number n) = eth_get_block w3' (by_number n).

(** A float that is not negative and not a NaN, and one that is not positive
    and not a NaN, through their specification. *)
Definition SF_nonneg (x : spec_float) : Prop :=
  match x with
  | S754_zero _ | S754_infinity false | S754_finite false _ _ => True
  | _ => False
  end.

Definition SF_nonpos (x : spec_float) : Prop :=
  match x with
  | S754_zero _ | S754_infinity true | S754_finite true _ _ => True
  | _ => False
  end.

(** A float that is at most one: a zero, or a positive finite float not above
    [2^52 * 2^-52]. *)
Definition SF_at_most_one (x : spec_float) : Prop :=
  match x with
  | S754_zero _ => True
  | S754_finite false m e => e < -52 \/ (e = -52 /\ Z.pos m <= 2 ^ 52)
  | _ => False
  end.

(** A vault that has assets and shares, both in [uint256], at every block of
    [1 .. latest]. *)
Definition funded (contract : Contract) (latest : Z) : Prop :=
  forall n, 1 <= n <= latest ->
    exists a s, totalAssets contract n = Some a /\
                totalSupply contract n = Some s /\
                uint256 a /\ uint256 s /\ 0 < a /\ 0 < s.

(** ** More nodes and vaults to run on *)

Module Runs.

(** The chain of the scenario on a node that has pruned the blocks below 6. *)
Definition pruned : Web3 := {|
  is_connected := true;
  block_number := 10;
  eth_get_block := fun id =>
    match id with
    | by_number n =>
        if (6 <=? n) && (n <=? 10)
        then Some {| number := n; timestamp := Scenario.timestamps n |}
        else None
    | latest_id => Some {| number := 10; timestamp := 190 |}
    end
|}.

(** The chain of the scenario behind a provider that does not answer. *)
Definition offline : Web3 := {|
  is_connected := false;
  block_number := block_number Scenario.w3;
  eth_get_block := eth_get_block Scenario.w3
|}.

(** The chain of the scenario with the timestamps of blocks 3 and 7
    exchanged. *)
Definition shuffled_timestamps (n : Z) : Z :=
  if n =? 3 then 160 else if n =? 7 then 120 else Scenario.timestamps n.

Definition shuffled : Web3 := {|
  is_connected := true;
  block_number := 10;
  eth_get_block := fun id =>
    match id with
    | by_number n =>
        if (0 <=? n) && (n <=? 10)
        then Some {| number := n; timestamp := shuffled_timestamps n |}
        else None
    | latest_id => Some {| number := 10; timestamp := 190 |}
    end
|}.

(** A chain of ten blocks a day apart. *)
Definition daily_timestamps (n : Z) : Z := 1700000000 + 86400 * n.

Definition daily : Web3 := {|
  is_connected := true;
  block_number := 10;
  eth_get_block := fun id =>
    match id with
    | by_number n =>
        if (0 <=? n) && (n <=? 10)
        then Some {| number := n; timestamp := daily_timestamps n |}
        else None
    | latest_id => Some {| number := 10; timestamp := daily_timestamps 10 |}
    end
|}.

(** A vault of 1000 shares whose assets grow by 10 a block. *)
Definition growing : Contract := {|
  totalAssets := fun n => Some (1000 + 10 * Z.max 0 (Z.min n 1000));
  totalSupply := fun _ => Some 1000
|}.

(** A vault with as many assets as shares. *)
Definition at_par : Contract := {|
  totalAssets := fun _ => Some 5000;
  totalSupply := fun _ => Some 5000
|}.

(** What [main] reports on the daily chain for the growing vault. *)
Definition daily_report : Report := {|
  latest_number := 10;
  target_ts := daily_timestamps 3;
  past_block_num := 3;
  past_ts_actual := daily_timestamps 3;
  pps_now := Spec.ratio 1100 1000;
  pps_past := Spec.ratio 1030 1000;
  figures :=
    Spec.APRCalculator (Spec.ratio 1100 1000) (Spec.ratio 1030 1000)
      LOOKBACK_DAYS LOOKBACK_SECONDS
|}.

End Runs.

(** ** Binary64 rounding: the facts the script's divisions need *)

Module B64.

Abbreviation digits := SpecFloat.Zdigits2.
Local Abbreviation fexp := (SpecFloat.fexp prec emax).

Lemma fexp_eq (k : Z) : fexp k = Z.max (k - 53) (-1074).
Proof. reflexivity. Qed.

Lemma digits2_pos_size (p : positive) : digits2_pos p = Pos.size p.
Proof. induction p; cbn; congruence. Qed.

Lemma digits_log2 (m : Z) : 0 < m -> digits m = Z.log2 m + 1.
Proof.
  destruct m as [|p|p]; try lia. intros _. cbn [digits].
  rewrite digits2_pos_size. destruct p; cbn; lia.
Qed.

Lemma digits_bounds (m : Z) :
  0 < m -> 1 <= digits m /\ 2 ^ (digits m - 1) <= m < 2 ^ digits m.
Proof.
  intros H. rewrite digits_log2 by exact H.
  pose proof (Z.log2_nonneg m). pose proof (Z.log2_spec m H).
  replace (Z.log2 m + 1 - 1) with (Z.log2 m) by lia.
  replace (Z.log2 m + 1) with (Z.succ (Z.log2 m)) by lia. lia.
Qed.

Lemma digits_unique (m d : Z) :
  2 ^ (d - 1) <= m < 2 ^ d -> 1 <= d -> digits m = d.
Proof.
  intros H Hd. assert (0 < m) by (pose proof (Z.pow_pos_nonneg 2 (d - 1)); lia).
  rewrite digits_log2 by assumption.
  rewrite (Z.log2_unique m (d - 1)); try lia.
  replace (Z.succ (d - 1)) with d by lia. exact H.
Qed.

(** Dropping [n] low bits. *)
Lemma digits_shift (m n : Z) :
  0 < m -> 0 <= n -> n < digits m ->
  0 < m / 2 ^ n /\ digits (m / 2 ^ n) = digits m - n.
Proof.
  intros Hm Hn Hlt. destruct (digits_bounds m Hm) as [Hd [Hlo Hhi]].
  assert (Hp : 0 < 2 ^ n) by (apply Z.pow_pos_nonneg; lia).
  assert (Hlow : 2 ^ (digits m - n - 1) <= m / 2 ^ n).
  { apply Z.div_le_lower_bound; [exact Hp|].
    rewrite <- Z.pow_add_r by lia.
    replace (n + (digits m - n - 1)) with (digits m - 1) by lia. exact Hlo. }
  assert (Hupp : m / 2 ^ n < 2 ^ (digits m - n)).
  { apply Z.div_lt_upper_bound; [exact Hp|].
    rewrite <- Z.pow_add_r by lia.
    replace (n + (digits m - n)) with (digits m) by lia. exact Hhi. }
  assert (0 < 2 ^ (digits m - n - 1)) by (apply Z.pow_pos_nonneg; lia).
  split; [lia|]. apply digits_unique; [|lia].
  replace (digits m - n - 1) with (digits m - n - 1) in Hlow by lia. lia.
Qed.

Lemma shift_out (m n : Z) :
  0 < m -> digits m <= n -> m / 2 ^ n = 0.
Proof.
  intros Hm Hn. destruct (digits_bounds m Hm) as [Hd [_ Hhi]].
  apply Z.div_small. split; [lia|].
  apply Z.lt_le_trans with (1 := Hhi). apply Z.pow_le_mono_r; lia.
Qed.

(** Adding one to a mantissa keeps its width, unless it reaches the next
    power of two. *)
Lemma digits_succ (m : Z) :
  0 < m ->
  digits (m + 1) = digits m \/
  (digits (m + 1) = digits m + 1 /\ m + 1 = 2 ^ digits m).
Proof.
  intros Hm. destruct (digits_bounds m Hm) as [Hd [Hlo Hhi]].
  destruct (Z.eq_dec (m + 1) (2 ^ digits m)) as [E|E].
  - right. split; [|exact E]. apply digits_unique; [|lia].
    replace (digits m + 1 - 1) with (digits m) by lia.
    rewrite Z.pow_add_r by lia. lia.
  - left. apply digits_unique; [|lia]. lia.
Qed.

Lemma shr_m_shr_1 (mrs : shr_record) :
  0 <= shr_m mrs -> shr_m (shr_1 mrs) = shr_m mrs / 2.
Proof.
  destruct mrs as [m r s]. cbn [shr_m]. intros H.
  destruct m as [|p|p]; [reflexivity| |lia].
  destruct p as [p|p|]; cbn [shr_1 shr_m].
  - rewrite Pos2Z.inj_xI. apply Z.div_unique with (r := 1); lia.
  - rewrite Pos2Z.inj_xO. apply Z.div_unique with (r := 0); lia.
  - reflexivity.
Qed.

Lemma shr_m_iter (p : positive) :
  forall mrs, 0 <= shr_m mrs ->
    shr_m (iter_pos shr_1 p mrs) = shr_m mrs / 2 ^ Zpos p.
Proof.
  induction p as [p IH|p IH|]; intros mrs H; cbn [iter_pos].
  - assert (H1 : 0 <= shr_m (shr_1 mrs))
      by (rewrite shr_m_shr_1 by exact H; apply Z.div_pos; lia).
    assert (H2 : 0 <= shr_m (iter_pos shr_1 p (shr_1 mrs)))
      by (rewrite IH by exact H1; apply Z.div_pos; [exact H1|];
          apply Z.pow_pos_nonneg; lia).
    rewrite IH by exact H2. rewrite IH by exact H1.
    rewrite shr_m_shr_1 by exact H.
    rewrite !Z.div_div by (try apply Z.pow_pos_nonneg; lia).
    f_equal. rewrite (Pos2Z.inj_xI p).
    replace (2 * Z.pos p + 1) with (1 + Z.pos p + Z.pos p) by lia.
    rewrite !Z.pow_add_r by lia. lia.
  - assert (H2 : 0 <= shr_m (iter_pos shr_1 p mrs))
      by (rewrite IH by exact H; apply Z.div_pos; [exact H|];
          apply Z.pow_pos_nonneg; lia).
    rewrite IH by exact H2. rewrite IH by exact H.
    rewrite !Z.div_div by (try apply Z.pow_pos_nonneg; lia).
    f_equal. rewrite (Pos2Z.inj_xO p).
    replace (2 * Z.pos p) with (Z.pos p + Z.pos p) by lia.
    rewrite !Z.pow_add_r by lia. lia.
  - rewrite shr_m_shr_1 by exact H. reflexivity.
Qed.

Lemma shr_m_of_loc (m : Z) (l : location) : shr_m (shr_record_of_loc m l) = m.
Proof. destruct l as [|[ | | ]]; reflexivity. Qed.

(** [shr_fexp] on a mantissa at or below its canonical exponent. *)
Lemma shr_fexp_spec (m e : Z) (l : location) :
  0 <= m -> e <= fexp (digits m + e) ->
  shr_m (fst (shr_fexp prec emax m e l)) = m / 2 ^ (fexp (digits m + e) - e) /\
  snd (shr_fexp prec emax m e l) = fexp (digits m + e).
Proof.
  intros Hm He. unfold shr_fexp, shr.
  destruct (fexp (digits m + e) - e) as [|p|p] eqn:E; cbn [fst snd].
  - rewrite shr_m_of_loc, Z.pow_0_r, Z.div_1_r. split; [reflexivity|lia].
  - rewrite shr_m_iter by (rewrite shr_m_of_loc; exact Hm).
    rewrite shr_m_of_loc. split; [reflexivity|lia].
  - lia.
Qed.

Lemma round_nearest_even_bounds (m : Z) (l : location) :
  m <= round_nearest_even m l <= m + 1.
Proof.
  destruct l as [|[ | | ]]; cbn; try lia. destruct (Z.even m); lia.
Qed.

(** What [binary_round_aux] returns for a positive mantissa at or below its
    canonical exponent, by the magnitude [digits m + e] of the input: never
    a NaN, zero only at or below the smallest subnormal's range, infinity
    only from [2^1023] on, and otherwise a canonical float of the same
    magnitude or one more. *)
Lemma binary_round_aux_cases (s : bool) (m e : Z) (l : location) :
  0 < m -> e <= fexp (digits m + e) ->
  match binary_round_aux prec emax s m e l with
  | S754_zero s' => s' = s /\ digits m + e <= -1074
  | S754_infinity s' => s' = s /\ 1024 <= digits m + e
  | S754_nan => False
  | S754_finite s' m' e' =>
      s' = s /\ bounded prec emax m' e' = true /\
      (-1074 < digits m + e ->
       digits m + e <= digits (Zpos m') + e' <= digits m + e + 1)
  end.
Proof.
  intros Hm He. unfold binary_round_aux.
  pose proof (shr_fexp_spec m e l ltac:(lia) He) as [Hm0 He1].
  destruct (shr_fexp prec emax m e l) as [mrs' e1]. cbn [fst snd] in Hm0, He1.
  set (m1 := round_nearest_even (shr_m mrs') (loc_of_shr_record mrs')).
  pose proof (round_nearest_even_bounds (shr_m mrs') (loc_of_shr_record mrs'))
    as Hm1. fold m1 in Hm1.
  set (k := digits m + e) in *.
  set (n := fexp k - e) in *.
  assert (Hn : 0 <= n) by (unfold n; lia).
  assert (Hm0' : (n < digits m /\ 0 < shr_m mrs' /\ digits (shr_m mrs') = k - e1)
                 \/ (digits m <= n /\ shr_m mrs' = 0)).
  { destruct (Z_lt_le_dec n (digits m)) as [Hlt|Hge].
    - left. destruct (digits_shift m n Hm Hn Hlt) as [Hpos Hd].
      rewrite Hm0. split; [exact Hlt|]. split; [exact Hpos|].
      rewrite Hd. unfold n, k in *. lia.
    - right. split; [exact Hge|]. rewrite Hm0. apply shift_out; assumption. }
  assert (Hfk : e1 = Z.max (k - 53) (-1074)) by (rewrite He1; apply fexp_eq).
  assert (Hk1 : (-1074 < k -> k <= digits m1 + e1 <= k + 1) /\
                (k <= -1074 -> m1 = 0 \/ digits m1 + e1 = -1073)).
  { destruct Hm0' as [[Hlt [Hpos Hd]]|[Hge Hz]].
    - assert (-1074 < k) by (unfold n, k in *; rewrite fexp_eq in Hlt; lia).
      split; [intros _|lia].
      assert (Hc : m1 = shr_m mrs' \/ m1 = shr_m mrs' + 1) by lia.
      destruct Hc as [->| ->]; [lia|].
      destruct (digits_succ (shr_m mrs') Hpos) as [E|[E _]]; lia.
    - assert (k <= -1074) by (unfold n, k in *; rewrite fexp_eq in Hge; lia).
      split; [lia|intros _].
      assert (Hc : m1 = 0 \/ m1 = 1) by lia.
      destruct Hc as [->| ->]; [left; reflexivity|right].
      cbn [digits digits2_pos]. lia. }
  destruct Hk1 as [Hk1a Hk1b].
  assert (Hm1nn : 0 <= m1) by (destruct Hm0' as [[_ [? _]]|[_ ?]]; lia).
  assert (He2 : e1 <= fexp (digits m1 + e1)).
  { rewrite fexp_eq. destruct (Z_lt_le_dec (-1074) k) as [Hc|Hc].
    - specialize (Hk1a Hc). lia.
    - lia. }
  pose proof (shr_fexp_spec m1 e1 loc_Exact Hm1nn He2) as [Hmr Her].
  destruct (shr_fexp prec emax m1 e1 loc_Exact) as [mrs'' e2].
  cbn [fst snd] in Hmr, Her.
  set (k1 := digits m1 + e1) in *.
  set (n1 := fexp k1 - e1) in *.
  assert (Hn1 : 0 <= n1) by (unfold n1; lia).
  assert (Hfk1 : e2 = Z.max (k1 - 53) (-1074)) by (rewrite Her; apply fexp_eq).
  destruct (Z.eq_dec m1 0) as [Hz|Hnz].
  - (* the rounded mantissa is zero *)
    rewrite Hz, Z.div_0_l in Hmr
      by (apply Z.pow_nonzero; lia).
    rewrite Hmr. split; [reflexivity|].
    destruct Hm0' as [[_ [? _]]|[Hge _]]; [lia|].
    unfold n, k in *. rewrite fexp_eq in Hge. lia.
  - assert (Hm1pos : 0 < m1) by lia.
    assert (Hlt1 : n1 < digits m1).
    { unfold n1, k1. rewrite fexp_eq.
      destruct (digits_bounds m1 Hm1pos) as [Hd1 _]. lia. }
    destruct (digits_shift m1 n1 Hm1pos Hn1 Hlt1) as [Hrpos Hrd].
    rewrite <- Hmr in Hrpos, Hrd.
    destruct (shr_m mrs'') as [|mr|mr]; [lia| |lia].
    assert (Hmag : digits (Z.pos mr) + e2 = k1)
      by (rewrite Hrd; unfold n1; lia).
    destruct (e2 <=? emax - prec) eqn:Hleb.
    + split; [reflexivity|]. split.
      * unfold bounded, canonical_mantissa. rewrite Hleb, andb_true_r.
        apply Z.eqb_eq. change (Z.pos (digits2_pos mr)) with (digits (Z.pos mr)).
        rewrite Hmag. symmetry. exact Her.
      * intros Hc. rewrite Hmag. apply Hk1a. exact Hc.
    + split; [reflexivity|]. apply Z.leb_gt in Hleb.
      change (emax - prec) with 971 in Hleb.
      destruct (Z_lt_le_dec (-1074) k) as [Hc|Hc].
      * specialize (Hk1a Hc). lia.
      * destruct (Hk1b Hc) as [?|?]; [lia|]. lia.
Qed.

(** The quotient [SFdiv_core_binary] hands to the rounding: positive, at or
    below its canonical exponent, and of the magnitude of the exact
    quotient, when that magnitude is in the normal range. *)
Lemma SFdiv_core_binary_spec (m1 m2 : positive) (e1 e2 q e' : Z) (l : location) :
  SFdiv_core_binary prec emax (Zpos m1) e1 (Zpos m2) e2 = (q, e', l) ->
  -1021 <= digits (Zpos m1) + e1 - (digits (Zpos m2) + e2) ->
  0 < q /\ e' <= fexp (digits q + e') /\
  digits (Zpos m1) + e1 - (digits (Zpos m2) + e2) <= digits q + e'
    <= digits (Zpos m1) + e1 - (digits (Zpos m2) + e2) + 1.
Proof.
  unfold SFdiv_core_binary.
  destruct (digits_bounds (Zpos m1) ltac:(lia)) as [Hd1 [Hlo1 Hhi1]].
  destruct (digits_bounds (Zpos m2) ltac:(lia)) as [Hd2 [Hlo2 Hhi2]].
  set (d1 := digits (Zpos m1)) in *. set (d2 := digits (Zpos m2)) in *.
  set (ee := Z.min (fexp (d1 + e1 - (d2 + e2))) (e1 - e2)).
  set (s := e1 - e2 - ee).
  set (m' := match s with
             | 0 => Z.pos m1
             | Z.pos _ => Z.shiftl (Z.pos m1) s
             | Z.neg _ => 0
             end).
  intros H HK.
  assert (Hee : ee <= d1 + e1 - (d2 + e2) - 53 /\ ee <= e1 - e2)
    by (unfold ee; rewrite fexp_eq; lia).
  assert (Hs : 0 <= s) by (unfold s; lia).
  assert (Hm' : m' = Z.pos m1 * 2 ^ s).
  { unfold m'. destruct s as [|p|p] eqn:Es; [lia| |lia].
    apply Z.shiftl_mul_pow2. lia. }
  destruct (Z.div_eucl m' (Z.pos m2)) as [q0 r0] eqn:E.
  assert (Hq : q0 = m' / Z.pos m2) by (unfold Z.div; rewrite E; reflexivity).
  injection H as <- <- _. clear E r0.
  set (t := d1 - 1 + s - d2).
  assert (Ht : 52 <= t) by (unfold t, s; lia).
  assert (Hqlo : 2 ^ t <= q0).
  { rewrite Hq. apply Z.div_le_lower_bound; [lia|].
    apply Z.le_trans with (2 ^ d2 * 2 ^ t).
    - apply Z.mul_le_mono_nonneg_r; [apply Z.pow_nonneg; lia|lia].
    - rewrite <- Z.pow_add_r by lia. rewrite Hm'.
      replace (d2 + t) with (d1 - 1 + s) by (unfold t; lia).
      rewrite Z.pow_add_r by lia.
      apply Z.mul_le_mono_nonneg_r; [apply Z.pow_nonneg; lia|exact Hlo1]. }
  assert (Hqhi : q0 < 2 ^ (t + 2)).
  { rewrite Hq. apply Z.div_lt_upper_bound; [lia|].
    apply Z.lt_le_trans with (2 ^ (d2 - 1) * 2 ^ (t + 2)).
    - rewrite <- Z.pow_add_r by lia. rewrite Hm'.
      replace (d2 - 1 + (t + 2)) with (d1 + s) by (unfold t; lia).
      rewrite Z.pow_add_r by lia.
      apply Z.mul_lt_mono_pos_r; [apply Z.pow_pos_nonneg; lia|exact Hhi1].
    - apply Z.mul_le_mono_nonneg_r; [apply Z.pow_nonneg; lia|exact Hlo2]. }
  assert (Hqpos : 0 < q0)
    by (pose proof (Z.pow_pos_nonneg 2 t ltac:(lia) ltac:(lia)); lia).
  assert (Hdq : digits q0 = t + 1 \/ digits q0 = t + 2).
  { destruct (Z_lt_le_dec q0 (2 ^ (t + 1))) as [Hc|Hc].
    - left. apply digits_unique; [|lia].
      replace (t + 1 - 1) with t by lia. lia.
    - right. apply digits_unique; [|lia].
      replace (t + 2 - 1) with (t + 1) by lia. lia. }
  split; [exact Hqpos|]. rewrite fexp_eq.
  unfold t, s in Hdq. lia.
Qed.

(** The quotient of two finite floats whose magnitudes differ by a normal
    exponent: a canonical float of that magnitude, up to two more, or an
    infinity when the magnitude reaches [2^1023]. *)
Lemma SFdiv_finite_cases (s1 s2 : bool) (m1 m2 : positive) (e1 e2 : Z) :
  -1021 <= digits (Zpos m1) + e1 - (digits (Zpos m2) + e2) ->
  match SFdiv prec emax (S754_finite s1 m1 e1) (S754_finite s2 m2 e2) with
  | S754_zero _ | S754_nan => False
  | S754_infinity s' =>
      s' = xorb s1 s2 /\
      1023 <= digits (Zpos m1) + e1 - (digits (Zpos m2) + e2)
  | S754_finite s' m' e' =>
      s' = xorb s1 s2 /\ bounded prec emax m' e' = true /\
      digits (Zpos m1) + e1 - (digits (Zpos m2) + e2)
        <= digits (Zpos m') + e'
        <= digits (Zpos m1) + e1 - (digits (Zpos m2) + e2) + 2
  end.
Proof.
  intros HK. cbn [SFdiv].
  destruct (SFdiv_core_binary prec emax (Z.pos m1) e1 (Z.pos m2) e2)
    as [[q e'] l] eqn:E.
  destruct (SFdiv_core_binary_spec _ _ _ _ _ _ _ E HK) as [Hq [He' Hmag]].
  pose proof (binary_round_aux_cases (xorb s1 s2) q e' l Hq He') as H.
  destruct (binary_round_aux prec emax (xorb s1 s2) q e' l) as [s'|s'| |s' m' e''].
  - lia.
  - destruct H as [-> H]. split; [reflexivity|lia].
  - exact H.
  - destruct H as [-> [Hb H]]. split; [reflexivity|]. split; [exact Hb|].
    specialize (H ltac:(lia)). lia.
Qed.

(** *** Primitive floats through their specification *)

Lemma Prim2SF_zero : Prim2SF 0%float = S754_zero false.
Proof. reflexivity. Qed.

Lemma Prim2SF_365 : Prim2SF 365%float = S754_finite false 6421147906211840 (-44).
Proof. vm_compute. reflexivity. Qed.

(** A float above zero is a positive finite float or the positive
    infinity. *)
Lemma positive_cases (x : float) :
  PrimFloat.ltb 0%float x = true ->
  (exists m e, Prim2SF x = S754_finite false m e) \/
  Prim2SF x = S754_infinity false.
Proof.
  rewrite ltb_spec, Prim2SF_zero. unfold SFltb, SFcompare.
  destruct (Prim2SF x) as [s|[|]| |[|] m e]; try discriminate; eauto.
Qed.

Lemma positive_finite_cases (x : float) :
  PrimFloat.ltb 0%float x = true -> PrimFloat.ltb x infinity = true ->
  exists m e, Prim2SF x = S754_finite false m e.
Proof.
  intros H0 Hinf. destruct (positive_cases x H0) as [H|H]; [exact H|].
  rewrite ltb_spec, H in Hinf. discriminate.
Qed.

Lemma nonzero_of_finite (x : float) (s : bool) (m : positive) (e : Z) :
  Prim2SF x = S754_finite s m e -> PrimFloat.eqb x 0%float = false.
Proof.
  intros H. rewrite eqb_spec, H, Prim2SF_zero. destruct s; reflexivity.
Qed.

Lemma nonzero_of_positive (x : float) :
  PrimFloat.ltb 0%float x = true -> PrimFloat.eqb x 0%float = false.
Proof.
  intros H. destruct (positive_cases x H) as [[m [e E]]|E].
  - exact (nonzero_of_finite x false m e E).
  - rewrite eqb_spec, E, Prim2SF_zero. reflexivity.
Qed.

(** Zero times a positive finite float is zero. *)
Lemma zero_mul_finite (y : float) (m : positive) (e : Z) :
  Prim2SF y = S754_finite false m e -> (0 * y)%float = 0%float.
Proof.
  intros H. apply Prim2SF_inj. rewrite mul_spec, H, Prim2SF_zero. reflexivity.
Qed.

(** A positive finite float divided by itself is one. *)
Lemma SFdiv_self (s : bool) (m : positive) (e : Z) :
  SFdiv prec emax (S754_finite s m e) (S754_finite s m e) =
  S754_finite false 4503599627370496 (-52).
Proof.
  cbn [SFdiv]. unfold SFdiv_core_binary.
  replace (digits (Z.pos m) + e - (digits (Z.pos m) + e)) with 0 by lia.
  replace (e - e) with 0 by lia.
  change (Z.min (fexp 0) 0) with (-53).
  change (0 - -53) with 53. cbv iota.
  assert (E : Z.div_eucl (Z.shiftl (Z.pos m) 53) (Z.pos m) = (2 ^ 53, 0)).
  { rewrite Z.shiftl_mul_pow2 by lia.
    pose proof (Z.div_mul (2 ^ 53) (Z.pos m) ltac:(lia)) as Hq.
    pose proof (Z.mod_mul (2 ^ 53) (Z.pos m) ltac:(lia)) as Hr.
    rewrite (Z.mul_comm (2 ^ 53)) in Hq, Hr.
    unfold Z.div, Z.modulo in Hq, Hr.
    destruct (Z.div_eucl (Z.pos m * 2 ^ 53) (Z.pos m)) as [q r].
    cbn [fst snd] in Hq, Hr. rewrite Hq, Hr. reflexivity. }
  change (IntDef.Z.div_eucl (IntDef.Z.shiftl (Z.pos m) 53) (Z.pos m))
    with (Z.div_eucl (Z.shiftl (Z.pos m) 53) (Z.pos m)).
  rewrite E.
  assert (L : new_location (Z.pos m) 0 = loc_Exact).
  { unfold new_location, new_location_even, new_location_odd.
    destruct (Z.even (Z.pos m)); reflexivity. }
  rewrite L. destruct s; vm_compute; reflexivity.
Qed.

Lemma div_self (x : float) :
  PrimFloat.ltb 0%float x = true -> PrimFloat.ltb x infinity = true ->
  (x / x)%float = 1%float.
Proof.
  intros H0 Hinf. destruct (positive_finite_cases x H0 Hinf) as [m [e E]].
  apply Prim2SF_inj. rewrite div_spec, E. unfold SF64div.
  rewrite SFdiv_self. vm_compute. reflexivity.
Qed.

(** *** [int / int] *)

Lemma digits_le_of_lt_pow2 (a n : Z) : 0 < a -> a < 2 ^ n -> digits a <= n.
Proof.
  intros Ha Hlt. destruct (digits_bounds a Ha) as [Hd [Hlo _]].
  destruct (Z_le_gt_dec (digits a) n) as [Hc|Hc]; [exact Hc|exfalso].
  assert (2 ^ n <= 2 ^ (digits a - 1)); [|lia].
  destruct (Z_lt_le_dec n 0) as [Hn|Hn].
  - rewrite (Z.pow_neg_r 2 n Hn). apply Z.pow_nonneg. lia.
  - apply Z.pow_le_mono_r; lia.
Qed.

(** The rounded quotient of two positive integers, the divisor below
    [2^1022]: a positive canonical float of the magnitude of the quotient, or
    an infinity. *)
Lemma int_quotient_pos (a b : Z) :
  0 < a -> 0 < b -> digits b <= 1022 ->
  match int_quotient a b with
  | S754_zero _ | S754_nan => False
  | S754_infinity _ => 1023 <= digits a - digits b
  | S754_finite s m e =>
      s = false /\ bounded prec emax m e = true /\
      digits a - digits b <= digits (Zpos m) + e <= digits a - digits b + 2
  end.
Proof.
  intros Ha Hb Hdb. destruct a as [|a|a]; try lia. destruct b as [|b|b]; try lia.
  unfold int_quotient, int_to_SF.
  pose proof (digits_bounds (Z.pos a) Ha) as [Hda _].
  pose proof (SFdiv_finite_cases false false a b 0 0 ltac:(lia)) as H.
  destruct (SFdiv prec emax (S754_finite false a 0) (S754_finite false b 0))
    as [s|s| |s m e]; try exact H.
  destruct H as [_ H]. lia.
Qed.

(** [a / b] for positive integers: a positive finite float, or
    [OverflowError]; the latter only from a quotient of [2^1022] on. *)
Lemma int_truediv_pos (a b : Z) :
  0 < a -> 0 < b -> digits b <= 1022 ->
  (int_truediv a b = Raise OverflowError /\ 1023 <= digits a - digits b) \/
  (exists m e,
      int_truediv a b = Ok (Spec.ratio a b) /\
      Prim2SF (Spec.ratio a b) = S754_finite false m e /\
      digits a - digits b <= digits (Zpos m) + e <= digits a - digits b + 2).
Proof.
  intros Ha Hb Hdb. pose proof (int_quotient_pos a b Ha Hb Hdb) as H.
  unfold int_truediv, Spec.ratio.
  assert (Hb0 : (b =? 0) = false) by (apply Z.eqb_neq; lia). rewrite Hb0.
  destruct (int_quotient a b) as [s|s| |s m e]; try contradiction.
  - left. split; [reflexivity|exact H].
  - right. destruct H as [-> [Hbd H]]. exists m, e.
    split; [reflexivity|]. split; [|exact H].
    apply Prim2SF_SF2Prim. exact Hbd.
Qed.

(** *** [365.0 / x] *)

Lemma div_365 (x : float) (m : positive) (e : Z) :
  Prim2SF x = S754_finite false m e ->
  -1013 <= digits (Zpos m) + e ->
  exists m' e', Prim2SF (365 / x)%float = S754_finite false m' e'.
Proof.
  intros E Hlo. rewrite div_spec, E, Prim2SF_365. unfold SF64div.
  pose proof (Prim2SF_valid x) as Hv. rewrite E in Hv. cbn [valid_binary] in Hv.
  pose proof (SFdiv_finite_cases false false 6421147906211840 m (-44) e) as H.
  change (digits (Z.pos 6421147906211840)) with 53 in H.
  unfold bounded, canonical_mantissa in Hv.
  apply andb_true_iff in Hv as [Hc Hle]. apply Z.eqb_eq in Hc. apply Z.leb_le in Hle.
  change (Z.pos (digits2_pos m)) with (digits (Z.pos m)) in Hc.
  rewrite fexp_eq in Hc. change (emax - prec) with 971 in Hle.
  specialize (H ltac:(lia)).
  destruct (SFdiv prec emax (S754_finite false 6421147906211840 (-44))
              (S754_finite false m e)) as [s|s| |s m' e']; try contradiction.
  - lia.
  - destruct H as [-> _]. eauto.
Qed.

End B64.

(** ** The locator: unfolding of the loop *)

Lemma search_loop_eq (w3 : Web3) (target_ts low high best : Z) :
  search_loop w3 target_ts low high best =
  if low <=? high then
    let mid := (low + high) / 2 in
    match get_block w3 (by_number mid) with
    | Raise e => (Raise e, [mid])
    | Ok block =>
        if timestamp block >=? target_ts
        then let r := search_loop w3 target_ts low (mid - 1) mid in
             (fst r, mid :: snd r)
        else let r := search_loop w3 target_ts (mid + 1) high best in
             (fst r, mid :: snd r)
    end
  else (Ok best, []).
Proof.
  funelim (search_loop w3 target_ts low high best); cbn zeta;
    repeat match goal with
      | H : (low <=? high) = _ |- context [low <=? high] => rewrite H
      | H : get_block _ ?i = _ |- context [get_block _ ?i] => rewrite H
      | H : (?t >=? _) = _ |- context [?t >=? _] => rewrite H
      end; reflexivity.
Qed.

Lemma mid_bounds (low high : Z) :
  low <= high -> low <= (low + high) / 2 <= high.
Proof.
  intros H; split.
  - apply Z.div_le_lower_bound; lia.
  - apply Z.div_le_upper_bound; lia.
Qed.

Section Locator.

Variable w3 : Web3.
Variable ts : Z -> Z.
Variable target_ts : Z.
Hypothesis Hserves : serves w3 ts.

Local Abbreviation latest := (block_number w3).

(** What the loop returns, from any state the loop can be in: [best] is
    either still the initial [latest] or the last block found at or after
    the target, and every block below [low] is before the target. *)
Lemma search_loop_inv (n : nat) :
  forall low high best,
    (Z.to_nat (high + 1 - low) <= n)%nat ->
    1 <= low -> low <= high + 1 -> high <= latest ->
    (low = 1 \/ ts (low - 1) < target_ts) ->
    ((best = latest /\ high = latest) \/
     (best = high + 1 /\ high < latest /\ target_ts <= ts best)) ->
    exists r,
      fst (search_loop w3 target_ts low high best) = Ok r /\
      ((r = latest /\ (latest = 0 \/ ts latest < target_ts)) \/
       (1 <= r <= latest /\ target_ts <= ts r /\
        (r = 1 \/ ts (r - 1) < target_ts))).
Proof.
  induction n as [|n IH]; intros low high best Hn Hlow Hlh Hhigh Hbelow Hbest;
    rewrite search_loop_eq.
  - assert (Hgt : (low <=? high) = false) by (apply Z.leb_gt; lia).
    rewrite Hgt. exists best. split; [reflexivity|].
    destruct Hbest as [[-> ->]|[-> [Hlt Hb]]].
    + left. split; [reflexivity|]. destruct Hbelow as [->|Hb]; [lia|].
      right. replace latest with (low - 1) by lia. exact Hb.
    + right. assert (Hl : high + 1 = low) by lia. rewrite Hl in *.
      split; [lia|]. split; [exact Hb|exact Hbelow].
  - destruct (low <=? high) eqn:Hle.
    + apply Z.leb_le in Hle. cbn zeta.
      pose proof (mid_bounds low high Hle) as Hmid.
      set (mid := (low + high) / 2) in *.
      destruct (Hserves mid) as [b [Hb Hts]]; [lia|].
      unfold get_block. rewrite Hb. cbn [call]. rewrite Hts.
      destruct (ts mid >=? target_ts) eqn:Hcmp; cbn [fst].
      * apply Z.geb_le in Hcmp.
        apply IH; lia.
      * assert (ts mid < target_ts) by (rewrite Z.geb_leb in Hcmp; apply Z.leb_gt in Hcmp; lia).
        apply IH; try lia.
        right. replace (mid + 1 - 1) with mid by lia. assumption.
    + apply Z.leb_gt in Hle. exists best. split; [reflexivity|].
      destruct Hbest as [[-> ->]|[-> [Hlt Hb]]].
      * left. split; [reflexivity|]. destruct Hbelow as [->|Hb]; [lia|].
        right. replace latest with (low - 1) by lia. exact Hb.
      * right. assert (Hl : high + 1 = low) by lia. rewrite Hl in *.
      split; [lia|]. split; [exact Hb|exact Hbelow].
Qed.

(** When no block of the interval reaches the target, the [else] branch is
    taken at every probe and [best] comes back as it went in. *)
Lemma search_loop_all_below (n : nat) :
  forall low high best,
    (Z.to_nat (high + 1 - low) <= n)%nat ->
    1 <= low -> high <= latest ->
    (forall b, low <= b <= high -> ts b < target_ts) ->
    fst (search_loop w3 target_ts low high best) = Ok best /\
    Forall (fun p => ts p < target_ts) (snd (search_loop w3 target_ts low high best)).
Proof.
  induction n as [|n IH]; intros low high best Hn Hlow Hhigh Hall;
    rewrite search_loop_eq.
  - assert (Hgt : (low <=? high) = false) by (apply Z.leb_gt; lia).
    rewrite Hgt. split; [reflexivity|constructor].
  - destruct (low <=? high) eqn:Hle; [|split; [reflexivity|constructor]].
    apply Z.leb_le in Hle. cbn zeta.
    pose proof (mid_bounds low high Hle) as Hmid.
    set (mid := (low + high) / 2) in *.
    destruct (Hserves mid) as [b [Hb Hts]]; [lia|].
    unfold get_block. rewrite Hb. cbn [call]. rewrite Hts.
    assert (Hlt : ts mid < target_ts) by (apply Hall; lia).
    assert (Hcmp : (ts mid >=? target_ts) = false)
      by (rewrite Z.geb_leb; apply Z.leb_gt; exact Hlt).
    rewrite Hcmp. cbn [fst snd].
    destruct (IH (mid + 1) high best) as [Hr Hp]; try lia.
    { intros b' Hb'. apply Hall. lia. }
    split; [exact Hr|]. constructor; assumption.
Qed.

End Locator.

(** The number of probes is bounded by the bit length of the interval
    width, whatever the node answers. *)
Lemma search_loop_probes (w3 : Web3) (target_ts : Z) (n : nat) :
  forall low high best,
    (Z.to_nat (high + 1 - low) <= n)%nat ->
    low <= high ->
    Z.of_nat (List.length (snd (search_loop w3 target_ts low high best)))
      <= Z.log2 (high + 1 - low) + 1.
Proof.
  induction n as [|n IH]; intros low high best Hn Hle; [lia|].
  rewrite search_loop_eq.
  destruct (low <=? high) eqn:E; [|apply Z.leb_gt in E; lia]. cbn zeta.
  pose proof (mid_bounds low high Hle) as Hmid.
  set (mid := (low + high) / 2) in *.
  assert (Hmid2 : 2 * mid <= low + high < 2 * mid + 2).
  { unfold mid. pose proof (Z.div_mod (low + high) 2 ltac:(lia)).
    pose proof (Z.mod_pos_bound (low + high) 2 ltac:(lia)). lia. }
  assert (Hlog : forall w, 1 <= w -> 2 * w <= high + 1 - low ->
                  Z.log2 w + 1 <= Z.log2 (high + 1 - low)).
  { intros w Hw H2. change (Z.log2 w + 1) with (Z.succ (Z.log2 w)).
    rewrite <- Z.log2_double by lia. apply Z.log2_le_mono. lia. }
  pose proof (Z.log2_nonneg (high + 1 - low)) as Hnn.
  destruct (get_block w3 (by_number mid)) as [b|e]; [|cbn; lia].
  destruct (timestamp b >=? target_ts); cbn [snd List.length]; rewrite Nat2Z.inj_succ.
  - destruct (Z_le_gt_dec low (mid - 1)) as [Hc|Hc].
    + specialize (IH low (mid - 1) mid ltac:(lia) Hc).
      specialize (Hlog (mid - 1 + 1 - low) ltac:(lia) ltac:(lia)). lia.
    + rewrite search_loop_eq.
      assert (Hgt : (low <=? mid - 1) = false) by (apply Z.leb_gt; lia).
      rewrite Hgt. cbn. lia.
  - destruct (Z_le_gt_dec (mid + 1) high) as [Hc|Hc].
    + specialize (IH (mid + 1) high best ltac:(lia) Hc).
      specialize (Hlog (high + 1 - (mid + 1)) ltac:(lia) ltac:(lia)). lia.
    + rewrite search_loop_eq.
      assert (Hgt : (mid + 1 <=? high) = false) by (apply Z.leb_gt; lia).
      rewrite Hgt. cbn. lia.
Qed.


(** ** The locator: the properties of the specification *)

Lemma scenario_serves : serves Scenario.w3 Scenario.timestamps.
Proof.
  intros n Hn. cbn in Hn. exists {| number := n; timestamp := Scenario.timestamps n |}.
  cbn. assert (E : (0 <=? n) && (n <=? 10) = true)
    by (apply andb_true_iff; split; apply Z.leb_le; lia).
  rewrite E. split; reflexivity.
Qed.

Lemma scenario_non_decreasing : non_decreasing Scenario.timestamps 10.
Proof. intros a b _ Hab _. unfold Scenario.timestamps. lia. Qed.

(** C1.  On a chain whose timestamps do not decrease over the blocks
    [1 .. latest], with [latest >= 1] and a target not after the timestamp of
    the latest block, [find_block_by_timestamp] returns the smallest block
    [b] of [1 .. latest] with [timestamp(b) >= target]: [b] is in range,
    satisfies the condition, no smaller block does, and [b] is 1 whenever
    the target is not after the timestamp of block 1.  (This holds for
    targets before [timestamp(1)] too.) *)
Theorem find_block_by_timestamp_minimal (w3 : Web3) (ts : Z -> Z) (target : Z) :
  serves w3 ts ->
  non_decreasing ts (block_number w3) ->
  1 <= block_number w3 ->
  target <= ts (block_number w3) ->
  exists b,
    find_block_by_timestamp w3 target = Ok b /\
    1 <= b <= block_number w3 /\
    target <= ts b /\
    (forall b', 1 <= b' -> b' < b -> ts b' < target) /\
    (target <= ts 1 -> b = 1).
Proof.
  intros Hs Hmono Hlatest Htarget.
  unfold find_block_by_timestamp, find_block_run. cbn zeta.
  destruct (search_loop_inv w3 ts target Hs (Z.to_nat (block_number w3))
              1 (block_number w3) (block_number w3))
    as [r [Hr Hcases]]; try lia.
  exists r. split; [exact Hr|].
  destruct Hcases as [[_ [H0|Hlt]]|[Hrange [Hge Hprev]]]; try lia.
  split; [exact Hrange|]. split; [exact Hge|].
  assert (Hbelow : forall b', 1 <= b' -> b' < r -> ts b' < target).
  { intros b' H1 H2. destruct Hprev as [->|Hprev]; [lia|].
    apply Z.le_lt_trans with (ts (r - 1)); [|exact Hprev].
    apply Hmono; lia. }
  split; [exact Hbelow|].
  intros H1. destruct (Z.eq_dec r 1) as [E|E]; [exact E|].
  specialize (Hbelow 1 ltac:(lia) ltac:(lia)). lia.
Qed.

Lemma find_block_by_timestamp_minimal_witness :
  serves Scenario.w3 Scenario.timestamps /\
  non_decreasing Scenario.timestamps (block_number Scenario.w3) /\
  1 <= block_number Scenario.w3 /\
  145 <= Scenario.timestamps (block_number Scenario.w3) /\
  exists b,
    find_block_by_timestamp Scenario.w3 145 = Ok b /\
    1 <= b <= block_number Scenario.w3 /\
    145 <= Scenario.timestamps b /\
    (forall b', 1 <= b' -> b' < b -> Scenario.timestamps b' < 145) /\
    (145 <= Scenario.timestamps 1 -> b = 1).
Proof.
  split; [exact scenario_serves|].
  split; [exact scenario_non_decreasing|].
  split; [cbn; lia|].
  split; [cbn; lia|].
  apply (find_block_by_timestamp_minimal Scenario.w3 Scenario.timestamps 145).
  - exact scenario_serves.
  - exact scenario_non_decreasing.
  - cbn; lia.
  - cbn; lia.
Defined.

(** C2.  When the timestamps do not decrease and the target is after the
    timestamp of the latest block, [find_block_by_timestamp] returns
    [latest], as a value and not as an exception: every probe takes the
    [else] branch, so the initial [best] is never overwritten. *)
Theorem find_block_by_timestamp_fallback (w3 : Web3) (ts : Z -> Z) (target : Z) :
  serves w3 ts ->
  non_decreasing ts (block_number w3) ->
  ts (block_number w3) < target ->
  find_block_by_timestamp w3 target = Ok (block_number w3) /\
  Forall (fun p => ts p < target) (find_block_probes w3 target).
Proof.
  intros Hs Hmono Hlt.
  unfold find_block_by_timestamp, find_block_probes, find_block_run. cbn zeta.
  apply (search_loop_all_below w3 ts target Hs (Z.to_nat (block_number w3)));
    try lia.
  intros b Hb. apply Z.le_lt_trans with (ts (block_number w3)); [|exact Hlt].
  apply Hmono; lia.
Qed.

Lemma find_block_by_timestamp_fallback_witness :
  serves Scenario.w3 Scenario.timestamps /\
  non_decreasing Scenario.timestamps (block_number Scenario.w3) /\
  Scenario.timestamps (block_number Scenario.w3) < 200 /\
  find_block_by_timestamp Scenario.w3 200 = Ok (block_number Scenario.w3) /\
  Forall (fun p => Scenario.timestamps p < 200)
    (find_block_probes Scenario.w3 200).
Proof.
  split; [exact scenario_serves|].
  split; [exact scenario_non_decreasing|].
  split; [cbn; lia|].
  apply (find_block_by_timestamp_fallback Scenario.w3 Scenario.timestamps 200).
  - exact scenario_serves.
  - exact scenario_non_decreasing.
  - cbn; lia.
Defined.

(** C7.  For a chain of height [N >= 1] and any target, whatever the node
    answers, the loop of [find_block_by_timestamp] ends with a result (the
    function is total, by recursion on the width [high + 1 - low] of the
    interval) after at most [floor(log2 N) + 1] timestamp probes; each
    iteration leaves an interval strictly narrower than the one it found. *)
Theorem find_block_probes_logarithmic (w3 : Web3) (target : Z) :
  1 <= block_number w3 ->
  (exists r probes,
     find_block_run w3 target = (r, probes) /\
     Z.of_nat (List.length probes) <= Z.log2 (block_number w3) + 1) /\
  (forall low high, low <= high ->
     let mid := (low + high) / 2 in
     0 <= (mid - 1) + 1 - low < high + 1 - low /\
     0 <= high + 1 - (mid + 1) < high + 1 - low).
Proof.
  intros HN. split.
  - exists (find_block_by_timestamp w3 target), (find_block_probes w3 target).
    split.
    + unfold find_block_by_timestamp, find_block_probes.
      destruct (find_block_run w3 target); reflexivity.
    + unfold find_block_probes, find_block_run. cbn zeta.
      pose proof (search_loop_probes w3 target (Z.to_nat (block_number w3))
                    1 (block_number w3) (block_number w3) ltac:(lia) HN) as H.
      replace (block_number w3 + 1 - 1) with (block_number w3) in H by lia.
      exact H.
  - intros low high Hle. cbn zeta. pose proof (mid_bounds low high Hle). lia.
Qed.

Lemma find_block_probes_logarithmic_witness :
  1 <= block_number Scenario.w3 /\
  (exists r probes,
     find_block_run Scenario.w3 145 = (r, probes) /\
     Z.of_nat (List.length probes) <= Z.log2 (block_number Scenario.w3) + 1) /\
  (forall low high, low <= high ->
     let mid := (low + high) / 2 in
     0 <= (mid - 1) + 1 - low < high + 1 - low /\
     0 <= high + 1 - (mid + 1) < high + 1 - low).
Proof.
  split; [cbn; lia|].
  apply (find_block_probes_logarithmic Scenario.w3 145). cbn; lia.
Defined.

(** The bound of C7 is reached, and it is one more than [ceil(log2 N)] when
    [N] is a power of two: on the chain of height 4 whose blocks are all
    before the target, three probes are made. *)
Example probes_height_4 :
  find_block_probes
    {| is_connected := true; block_number := 4;
       eth_get_block := fun _ => Some {| number := 0; timestamp := 0 |} |} 1
  = [2; 3; 4].
Proof. vm_compute. reflexivity. Qed.

(** C9.  On a chain of height 0, [find_block_by_timestamp] makes no
    timestamp probe and returns 0, which is not a block of
    [1 .. latest]. *)
Theorem find_block_by_timestamp_height_0 (w3 : Web3) (target : Z) :
  block_number w3 = 0 ->
  find_block_by_timestamp w3 target = Ok 0 /\
  find_block_probes w3 target = [] /\
  ~ (1 <= 0 <= block_number w3).
Proof.
  intros H0.
  unfold find_block_by_timestamp, find_block_probes, find_block_run.
  rewrite H0. cbn zeta. rewrite search_loop_eq. cbn.
  split; [reflexivity|]. split; [reflexivity|lia].
Qed.

Lemma find_block_by_timestamp_height_0_witness :
  block_number Scenario.genesis_only = 0 /\
  find_block_by_timestamp Scenario.genesis_only 145 = Ok 0 /\
  find_block_probes Scenario.genesis_only 145 = [] /\
  ~ (1 <= 0 <= block_number Scenario.genesis_only).
Proof.
  split; [reflexivity|].
  apply (find_block_by_timestamp_height_0 Scenario.genesis_only 145).
  reflexivity.
Defined.

(** ** The reader and the APR figures: evaluation *)

Lemma float_of_int_100 : float_of_int 100 = Ok 100%float.
Proof. vm_compute. reflexivity. Qed.

Lemma yearly_factor_7d_value :
  float_truediv_int 365%float LOOKBACK_DAYS = Ok (365 / 7)%float.
Proof. vm_compute. reflexivity. Qed.

Lemma of_int_7 : Spec.of_int 7 = 7%float.
Proof. vm_compute. reflexivity. Qed.

Lemma to_datetime_range (ts : Z) (d : datetime) :
  to_datetime ts = Ok d -> DATETIME_MIN <= ts <= DATETIME_MAX.
Proof.
  unfold to_datetime, datetime_fromtimestamp_utc.
  destruct ((DATETIME_MIN <=? ts) && (ts <=? DATETIME_MAX)) eqn:E; [|discriminate].
  intros _. apply andb_true_iff in E as [H1 H2].
  apply Z.leb_le in H1, H2. lia.
Qed.

(** The difference of two instants [datetime] accepts is below [2^39]. *)
Lemma elapsed_bound (latest_ts past_ts : Z) (d1 d2 : datetime) :
  to_datetime latest_ts = Ok d1 -> to_datetime past_ts = Ok d2 ->
  latest_ts - past_ts < 2 ^ 39.
Proof.
  intros H1 H2. apply to_datetime_range in H1, H2.
  unfold DATETIME_MIN, DATETIME_MAX in *. change (2 ^ 39) with 549755813888. lia.
Qed.

(** [dt_seconds / 86400] for a positive [dt_seconds]: a positive finite
    float of magnitude at least [2^-17], or [OverflowError]. *)
Lemma days_interval_cases (dt : Z) :
  0 < dt ->
  (int_truediv dt 86400 = Raise OverflowError /\ 1040 <= B64.digits dt) \/
  (exists m e,
      int_truediv dt 86400 = Ok (Spec.ratio dt 86400) /\
      Prim2SF (Spec.ratio dt 86400) = S754_finite false m e /\
      -16 <= B64.digits (Zpos m) + e).
Proof.
  intros Hdt.
  pose proof (B64.digits_bounds dt Hdt) as [Hd _].
  destruct (B64.int_truediv_pos dt 86400 Hdt ltac:(lia) ltac:(cbn; lia))
    as [[Ho Hb]|[m [e [Hok [Hsf Hmag]]]]].
  - left. split; [exact Ho|]. change (B64.digits 86400) with 17 in Hb. lia.
  - right. exists m, e. split; [exact Hok|]. split; [exact Hsf|].
    change (B64.digits 86400) with 17 in Hmag. lia.
Qed.

Lemma days_interval_finite (dt : Z) :
  0 < dt -> dt < 2 ^ 39 ->
  exists m e,
    int_truediv dt 86400 = Ok (Spec.ratio dt 86400) /\
    Prim2SF (Spec.ratio dt 86400) = S754_finite false m e /\
    -16 <= B64.digits (Zpos m) + e.
Proof.
  intros Hdt Hlt. destruct (days_interval_cases dt Hdt) as [[_ Hb]|H]; [|exact H].
  pose proof (B64.digits_le_of_lt_pow2 dt 39 Hdt Hlt). lia.
Qed.

(** [main_apr] up to the test of [dt_seconds]. *)
Lemma main_apr_unfold (pps_now pps_past : float) (latest_ts past_ts : Z) :
  PrimFloat.eqb pps_past 0%float = false ->
  main_apr pps_now pps_past latest_ts past_ts =
  if latest_ts - past_ts <=? 0 then
    Raise (RuntimeError "Non-positive time interval between blocks")
  else
    days_interval <- int_truediv (latest_ts - past_ts) 86400 ;;
    yearly_factor_real <- float_truediv 365 days_interval ;;
    Ok {| change_ratio := (pps_now / pps_past)%float;
          change_pct := ((pps_now / pps_past - 1) * 100)%float;
          apr_7d_window := ((pps_now / pps_past - 1) * (365 / 7) * 100)%float;
          days_interval := days_interval;
          apr_real :=
            ((pps_now / pps_past - 1) * yearly_factor_real * 100)%float |}.
Proof.
  intros Hnz. unfold main_apr, float_truediv at 1, float_mul_int.
  rewrite Hnz, float_of_int_100, yearly_factor_7d_value. reflexivity.
Qed.

Lemma main_apr_eval (pps_now pps_past : float) (latest_ts past_ts : Z) :
  PrimFloat.eqb pps_past 0%float = false ->
  0 < latest_ts - past_ts -> latest_ts - past_ts < 2 ^ 39 ->
  main_apr pps_now pps_past latest_ts past_ts =
  Ok (Spec.APRCalculator pps_now pps_past LOOKBACK_DAYS (latest_ts - past_ts)).
Proof.
  intros Hnz Hpos Hlt. rewrite main_apr_unfold by exact Hnz.
  assert (Hgt : (latest_ts - past_ts <=? 0) = false) by (apply Z.leb_gt; lia).
  rewrite Hgt.
  destruct (days_interval_finite _ Hpos Hlt) as [m [e [Hok [Hsf _]]]].
  rewrite Hok. cbn [bind]. unfold float_truediv.
  rewrite (B64.nonzero_of_finite _ _ _ _ Hsf). cbn [bind].
  unfold Spec.APRCalculator, Spec.apr_nominal, Spec.apr_actual, Spec.pct_change,
    Spec.ratio_change, Spec.elapsed_days_actual, LOOKBACK_DAYS.
  rewrite of_int_7. reflexivity.
Qed.

(** Whenever the APR computation returns figures, they are those of the
    formulas, for the elapsed time it was given. *)
Lemma main_apr_ok_inv (pps_now pps_past : float) (latest_ts past_ts : Z)
  (f : Figures) :
  main_apr pps_now pps_past latest_ts past_ts = Ok f ->
  f = Spec.APRCalculator pps_now pps_past LOOKBACK_DAYS (latest_ts - past_ts).
Proof.
  intros H. destruct (PrimFloat.eqb pps_past 0%float) eqn:E.
  - unfold main_apr in H. rewrite E in H. discriminate.
  - rewrite main_apr_unfold in H by exact E.
    destruct (latest_ts - past_ts <=? 0) eqn:Hle; [discriminate|].
    apply Z.leb_gt in Hle.
    destruct (days_interval_cases _ Hle) as [[Ho _]|[m [e [Hok [Hsf _]]]]].
    + rewrite Ho in H. discriminate.
    + rewrite Hok in H. cbn [bind] in H. unfold float_truediv in H.
      rewrite (B64.nonzero_of_finite _ _ _ _ Hsf) in H. cbn [bind] in H.
      injection H as <-.
      unfold Spec.APRCalculator, Spec.apr_nominal, Spec.apr_actual,
        Spec.pct_change, Spec.ratio_change, Spec.elapsed_days_actual,
        LOOKBACK_DAYS.
      rewrite of_int_7. reflexivity.
Qed.

(** A price per share read from [uint256] answers is zero or a positive
    finite float. *)
Lemma pps_sample_finite (total_assets total_supply : Z) :
  uint256 total_assets -> uint256 total_supply -> total_supply <> 0 ->
  Spec.ratio total_assets total_supply = 0%float \/
  (PrimFloat.ltb 0%float (Spec.ratio total_assets total_supply) = true /\
   PrimFloat.ltb (Spec.ratio total_assets total_supply) infinity = true).
Proof.
  intros [Ha0 Ha1] [Hs0 Hs1] Hnz.
  destruct (Z.eq_dec total_assets 0) as [->|Hanz].
  - left. unfold Spec.ratio, int_quotient.
    destruct total_supply; try lia; reflexivity.
  - right.
    assert (Hsd : B64.digits total_supply <= 256)
      by (apply B64.digits_le_of_lt_pow2; lia).
    assert (Had : B64.digits total_assets <= 256)
      by (apply B64.digits_le_of_lt_pow2; lia).
    pose proof (B64.digits_bounds total_supply ltac:(lia)) as [Hsd1 _].
    destruct (B64.int_truediv_pos total_assets total_supply
                ltac:(lia) ltac:(lia) ltac:(lia))
      as [[_ Hb]|[m [e [_ [Hsf _]]]]]; [lia|].
    rewrite !ltb_spec, Hsf. split; reflexivity.
Qed.

(** A run of [main] that ends with a report has converted both timestamps
    with [to_datetime], has read both samples, and reports the figures of the
    formulas for the elapsed time between the two blocks. *)
Lemma main_ok_inv (w3 : Web3) (stolas : Contract) (report : Report) :
  main w3 stolas = Ok report ->
  exists latest_block latest_dt past_dt_actual,
    get_block w3 latest_id = Ok latest_block /\
    latest_number report = number latest_block /\
    target_ts report = timestamp latest_block - LOOKBACK_SECONDS /\
    to_datetime (timestamp latest_block) = Ok latest_dt /\
    find_block_by_timestamp w3 (target_ts report) = Ok (past_block_num report) /\
    to_datetime (past_ts_actual report) = Ok past_dt_actual /\
    get_pps_at_block stolas (latest_number report) = Ok (pps_now report) /\
    get_pps_at_block stolas (past_block_num report) = Ok (pps_past report) /\
    figures report =
      Spec.APRCalculator (pps_now report) (pps_past report) LOOKBACK_DAYS
        (timestamp latest_block - past_ts_actual report).
Proof.
  unfold main. destruct (negb (is_connected w3)); [discriminate|].
  destruct (get_block w3 latest_id) as [latest_block|] eqn:E1;
    [|discriminate]. cbn [bind].
  destruct (to_datetime (timestamp latest_block)) as [latest_dt|] eqn:E2;
    [|discriminate]. cbn [bind].
  destruct (to_datetime (timestamp latest_block - LOOKBACK_SECONDS))
    as [target_dt|] eqn:E3; [|discriminate]. cbn [bind].
  destruct (find_block_by_timestamp w3 (timestamp latest_block - LOOKBACK_SECONDS))
    as [past_num|] eqn:E4; [|discriminate]. cbn [bind].
  destruct (get_block w3 (by_number past_num)) as [past_block|] eqn:E5;
    [|discriminate]. cbn [bind].
  destruct (to_datetime (timestamp past_block)) as [past_dt|] eqn:E6;
    [|discriminate]. cbn [bind].
  destruct (get_pps_at_block stolas (number latest_block)) as [p_now|] eqn:E7;
    [|discriminate]. cbn [bind].
  destruct (get_pps_at_block stolas past_num) as [p_past|] eqn:E8;
    [|discriminate]. cbn [bind].
  destruct (main_apr p_now p_past (timestamp latest_block) (timestamp past_block))
    as [f|] eqn:E9; [|discriminate]. cbn [bind].
  intros [= <-]. cbn.
  exists latest_block, latest_dt, past_dt.
  repeat (split; [first [reflexivity | assumption]|]).
  apply main_apr_ok_inv. exact E9.
Qed.

(** ** The reader and the APR figures: the properties of the specification *)

(** C3.  For a positive [ratio_past], [lookback_days = 7] and a positive
    elapsed time between two timestamps [main] has converted with
    [to_datetime], the APR computation returns figures, and they are those of
    the formulas: [apr_nominal = (ratio_now / ratio_past - 1) * (365 /
    lookback_days) * 100] and [apr_actual = (ratio_now / ratio_past - 1) *
    (365 / (elapsed_seconds_actual / 86400)) * 100]; the measured interval
    does not occur in [apr_nominal], which is the same for any other pair of
    timestamps.  ([ratio_now] may be any float.) *)
Theorem main_apr_formulas (pps_now pps_past : float)
  (latest_ts past_ts_actual : Z) (latest_dt past_dt_actual : datetime) :
  PrimFloat.ltb 0%float pps_past = true ->
  to_datetime latest_ts = Ok latest_dt ->
  to_datetime past_ts_actual = Ok past_dt_actual ->
  0 < latest_ts - past_ts_actual ->
  LOOKBACK_DAYS = 7 /\
  exists f,
    main_apr pps_now pps_past latest_ts past_ts_actual = Ok f /\
    apr_7d_window f = Spec.apr_nominal pps_now pps_past 7 /\
    apr_real f = Spec.apr_actual pps_now pps_past (latest_ts - past_ts_actual) /\
    (forall latest_ts' past_ts_actual' f',
       main_apr pps_now pps_past latest_ts' past_ts_actual' = Ok f' ->
       apr_7d_window f' = apr_7d_window f).
Proof.
  intros Hpast H1 H2 Hpos. split; [reflexivity|].
  exists (Spec.APRCalculator pps_now pps_past LOOKBACK_DAYS
            (latest_ts - past_ts_actual)).
  split; [|split; [reflexivity|split; [reflexivity|]]].
  - apply main_apr_eval.
    + apply B64.nonzero_of_positive. exact Hpast.
    + exact Hpos.
    + exact (elapsed_bound _ _ _ _ H1 H2).
  - intros l' p' f' Hf'.
    rewrite (main_apr_ok_inv _ _ _ _ _ Hf'). reflexivity.
Qed.

Lemma main_apr_formulas_witness :
  PrimFloat.ltb 0%float 1.5%float = true /\
  to_datetime 190 = Ok {| unix_seconds := 190 |} /\
  to_datetime 150 = Ok {| unix_seconds := 150 |} /\
  0 < 190 - 150 /\
  LOOKBACK_DAYS = 7 /\
  exists f,
    main_apr 2%float 1.5%float 190 150 = Ok f /\
    apr_7d_window f = Spec.apr_nominal 2%float 1.5%float 7 /\
    apr_real f = Spec.apr_actual 2%float 1.5%float (190 - 150) /\
    (forall latest_ts' past_ts_actual' f',
       main_apr 2%float 1.5%float latest_ts' past_ts_actual' = Ok f' ->
       apr_7d_window f' = apr_7d_window f).
Proof.
  split; [reflexivity|]. split; [reflexivity|]. split; [reflexivity|].
  split; [lia|].
  apply (main_apr_formulas 2%float 1.5%float 190 150
           {| unix_seconds := 190 |} {| unix_seconds := 150 |}).
  - reflexivity.
  - reflexivity.
  - reflexivity.
  - lia.
Defined.

(** C4.  At any block where the two views answer with [uint256] values,
    [get_pps_at_block] raises its [RuntimeError] if and only if [totalSupply]
    answers 0, whatever [totalAssets] answers; otherwise it returns the float
    nearest to [totalAssets / totalSupply]. *)
Theorem get_pps_at_block_undefined_iff (contract : Contract)
  (block_number total_assets total_supply : Z) :
  totalAssets contract block_number = Some total_assets ->
  totalSupply contract block_number = Some total_supply ->
  uint256 total_assets -> uint256 total_supply ->
  ((exists msg, get_pps_at_block contract block_number = Raise (RuntimeError msg))
   <-> total_supply = 0) /\
  (total_supply <> 0 ->
   get_pps_at_block contract block_number
   = Ok (Spec.ratio total_assets total_supply)).
Proof.
  intros Ha Hs [Ha0 Ha1] [Hs0 Hs1].
  assert (Hok : total_supply <> 0 ->
                get_pps_at_block contract block_number
                = Ok (Spec.ratio total_assets total_supply)).
  { intros Hnz. unfold get_pps_at_block. rewrite Ha, Hs. cbn [call bind].
    assert (E : (total_supply =? 0) = false) by (apply Z.eqb_neq; exact Hnz).
    rewrite E.
    destruct (Z.eq_dec total_assets 0) as [->|Hanz].
    - unfold int_truediv, Spec.ratio, int_quotient. rewrite E.
      destruct total_supply; try lia; reflexivity.
    - assert (Hsd : B64.digits total_supply <= 256)
        by (apply B64.digits_le_of_lt_pow2; lia).
      assert (Had : B64.digits total_assets <= 256)
        by (apply B64.digits_le_of_lt_pow2; lia).
      pose proof (B64.digits_bounds total_supply ltac:(lia)) as [Hsd1 _].
      destruct (B64.int_truediv_pos total_assets total_supply
                  ltac:(lia) ltac:(lia) ltac:(lia))
        as [[_ Hb]|[m [e [Hdiv _]]]]; [lia|].
      rewrite Hdiv. reflexivity. }
  split; [|exact Hok]. split.
  - intros [msg Hmsg]. destruct (Z.eq_dec total_supply 0) as [E|E]; [exact E|].
    rewrite (Hok E) in Hmsg. discriminate.
  - intros ->. unfold get_pps_at_block. rewrite Ha, Hs. cbn [call bind Z.eqb].
    eexists. reflexivity.
Qed.

Lemma get_pps_at_block_undefined_iff_witness :
  totalAssets Scenario.stolas 10 = Some 200 /\
  totalSupply Scenario.stolas 10 = Some 100 /\
  uint256 200 /\ uint256 100 /\
  ((exists msg, get_pps_at_block Scenario.stolas 10 = Raise (RuntimeError msg))
   <-> 100 = 0) /\
  (100 <> 0 ->
   get_pps_at_block Scenario.stolas 10 = Ok (Spec.ratio 200 100)).
Proof.
  assert (U : forall v, 0 <= v < 2 ^ 8 -> uint256 v).
  { intros v Hv. unfold uint256.
    assert (2 ^ 8 <= 2 ^ 256) by (apply Z.pow_le_mono_r; lia). lia. }
  split; [reflexivity|]. split; [reflexivity|].
  split; [apply U; cbn; lia|]. split; [apply U; cbn; lia|].
  apply (get_pps_at_block_undefined_iff Scenario.stolas 10 200 100).
  - reflexivity.
  - reflexivity.
  - apply U; cbn; lia.
  - apply U; cbn; lia.
Defined.

(** C5, as the code has it.  When the elapsed time between the two
    timestamps is not positive, the APR computation returns no figures: it
    raises the [RuntimeError] of the non-positive interval when [pps_past] is
    not zero, and the [RuntimeError] of [pps_past == 0], which is tested
    first, when [pps_past] is zero. *)
Theorem main_apr_non_positive_interval (pps_now pps_past : float)
  (latest_ts past_ts_actual : Z) :
  latest_ts - past_ts_actual <= 0 ->
  main_apr pps_now pps_past latest_ts past_ts_actual =
  Raise (RuntimeError
           (if PrimFloat.eqb pps_past 0%float
            then "pps_past == 0, APR cannot be computed"
            else "Non-positive time interval between blocks")).
Proof.
  intros Hdt. destruct (PrimFloat.eqb pps_past 0%float) eqn:E.
  - unfold main_apr. rewrite E. reflexivity.
  - rewrite main_apr_unfold by exact E.
    assert (Hle : (latest_ts - past_ts_actual <=? 0) = true)
      by (apply Z.leb_le; exact Hdt).
    rewrite Hle. reflexivity.
Qed.

Lemma main_apr_non_positive_interval_witness :
  190 - 190 <= 0 /\
  main_apr 2%float 1.5%float 190 190 =
  Raise (RuntimeError
           (if PrimFloat.eqb 1.5%float 0%float
            then "pps_past == 0, APR cannot be computed"
            else "Non-positive time interval between blocks")).
Proof.
  split; [lia|].
  apply (main_apr_non_positive_interval 2%float 1.5%float 190 190). lia.
Defined.

(** C5, as stated, fails: the emptied vault has a price per share of zero,
    and with a past sample of zero and no time elapsed the error raised is
    that of [pps_past == 0], not that of the interval. *)
Lemma main_apr_zero_past_sample :
  get_pps_at_block Scenario.emptied 10 = Ok 0%float /\
  190 - 190 <= 0 /\
  main_apr 0%float 0%float 190 190
  = Raise (RuntimeError "pps_past == 0, APR cannot be computed") /\
  main_apr 0%float 0%float 190 190
  <> Raise (RuntimeError "Non-positive time interval between blocks").
Proof.
  split; [vm_compute; reflexivity|]. split; [lia|].
  split; [vm_compute; reflexivity|].
  vm_compute. discriminate.
Qed.

(** C6.  For a positive finite ratio [r] taken as both samples and a
    positive elapsed time between two timestamps [main] has converted with
    [to_datetime], the APR computation returns figures whose [apr_nominal]
    and [apr_actual] are both exactly zero. *)
Theorem main_apr_unchanged_ratio (r : float) (latest_ts past_ts_actual : Z)
  (latest_dt past_dt_actual : datetime) :
  PrimFloat.ltb 0%float r = true ->
  PrimFloat.ltb r infinity = true ->
  to_datetime latest_ts = Ok latest_dt ->
  to_datetime past_ts_actual = Ok past_dt_actual ->
  0 < latest_ts - past_ts_actual ->
  exists f,
    main_apr r r latest_ts past_ts_actual = Ok f /\
    apr_7d_window f = 0%float /\
    apr_real f = 0%float.
Proof.
  intros H0 Hfin H1 H2 Hpos.
  pose proof (elapsed_bound _ _ _ _ H1 H2) as Hlt.
  exists (Spec.APRCalculator r r LOOKBACK_DAYS (latest_ts - past_ts_actual)).
  split; [apply main_apr_eval; try assumption;
          apply B64.nonzero_of_positive; exact H0|].
  unfold Spec.APRCalculator, Spec.apr_nominal, Spec.apr_actual,
    Spec.ratio_change, Spec.elapsed_days_actual, LOOKBACK_DAYS.
  cbn [apr_7d_window apr_real].
  rewrite (B64.div_self r H0 Hfin), of_int_7.
  split; [vm_compute; reflexivity|].
  destruct (days_interval_finite _ Hpos Hlt) as [m [e [_ [Hsf Hmag]]]].
  destruct (B64.div_365 _ m e Hsf ltac:(lia)) as [m' [e' Hy]].
  change (1 - 1)%float with 0%float.
  rewrite (B64.zero_mul_finite _ m' e' Hy). reflexivity.
Qed.

Lemma main_apr_unchanged_ratio_witness :
  PrimFloat.ltb 0%float 1.5%float = true /\
  PrimFloat.ltb 1.5%float infinity = true /\
  to_datetime 190 = Ok {| unix_seconds := 190 |} /\
  to_datetime 150 = Ok {| unix_seconds := 150 |} /\
  0 < 190 - 150 /\
  exists f,
    main_apr 1.5%float 1.5%float 190 150 = Ok f /\
    apr_7d_window f = 0%float /\
    apr_real f = 0%float.
Proof.
  split; [reflexivity|]. split; [reflexivity|]. split; [reflexivity|].
  split; [reflexivity|]. split; [lia|].
  apply (main_apr_unchanged_ratio 1.5%float 190 150
           {| unix_seconds := 190 |} {| unix_seconds := 150 |}).
  - reflexivity.
  - reflexivity.
  - reflexivity.
  - reflexivity.
  - lia.
Defined.

(** C8.  In the scenario of ten blocks with timestamps 100, 110, ..., 190,
    the locator called with target 145 returns block 6, of timestamp 150; the
    price per share is 2.0 at block 10 and 1.5 at block 6; and the APR
    computation on these gives a ratio change of about 1.33333 and, with the
    lookback of 7 days, an [apr_nominal] of about 1738.10 percent. *)
Theorem scenario_figures :
  map (fun n => option_map timestamp (eth_get_block Scenario.w3 (by_number n)))
      [1; 2; 3; 4; 5; 6; 7; 8; 9; 10]
  = map Some [100; 110; 120; 130; 140; 150; 160; 170; 180; 190] /\
  find_block_by_timestamp Scenario.w3 145 = Ok 6 /\
  get_pps_at_block Scenario.stolas 10 = Ok 2%float /\
  get_pps_at_block Scenario.stolas 6 = Ok 1.5%float /\
  LOOKBACK_DAYS = 7 /\
  exists f,
    main_apr 2%float 1.5%float 190 150 = Ok f /\
    PrimFloat.ltb (abs (change_ratio f - 1.33333)) 0.00001 = true /\
    PrimFloat.ltb (abs (apr_7d_window f - 1738.10)) 0.005 = true.
Proof.
  split; [vm_compute; reflexivity|]. split; [vm_compute; reflexivity|].
  split; [vm_compute; reflexivity|]. split; [vm_compute; reflexivity|].
  split; [reflexivity|].
  eexists. split; [vm_compute; reflexivity|].
  split; vm_compute; reflexivity.
Qed.

(** ** Division by zero *)

(** The division operators raise [ZeroDivisionError] exactly on a zero
    divisor. *)
Lemma int_truediv_zero_iff (a b : Z) :
  int_truediv a b = Raise ZeroDivisionError <-> b = 0.
Proof.
  unfold int_truediv. destruct (b =? 0) eqn:E.
  - apply Z.eqb_eq in E. tauto.
  - apply Z.eqb_neq in E.
    destruct (int_quotient a b); split; intros H; try discriminate; contradiction.
Qed.

Lemma float_truediv_zero_iff (x y : float) :
  float_truediv x y = Raise ZeroDivisionError <-> PrimFloat.eqb y 0%float = true.
Proof.
  unfold float_truediv. destruct (PrimFloat.eqb y 0%float); split;
    intros H; try discriminate; reflexivity.
Qed.

Lemma bind_no_zero_division {A B : Type} (r : result A) (k : A -> result B) :
  r <> Raise ZeroDivisionError ->
  (forall a, r = Ok a -> k a <> Raise ZeroDivisionError) ->
  bind r k <> Raise ZeroDivisionError.
Proof.
  intros Hr Hk. destruct r as [a|e]; cbn [bind].
  - apply Hk. reflexivity.
  - intros H. apply Hr. injection H as ->. reflexivity.
Qed.

Lemma call_no_zero_division {A : Type} (answer : option A) :
  call answer <> Raise ZeroDivisionError.
Proof. destruct answer; discriminate. Qed.

Lemma to_datetime_no_zero_division (ts : Z) :
  to_datetime ts <> Raise ZeroDivisionError.
Proof.
  unfold to_datetime, datetime_fromtimestamp_utc.
  destruct ((DATETIME_MIN <=? ts) && (ts <=? DATETIME_MAX)); discriminate.
Qed.

Lemma search_loop_no_zero_division (w3 : Web3) (target : Z) (n : nat) :
  forall low high best,
    (Z.to_nat (high + 1 - low) <= n)%nat ->
    fst (search_loop w3 target low high best) <> Raise ZeroDivisionError.
Proof.
  induction n as [|n IH]; intros low high best Hn; rewrite search_loop_eq.
  - assert (E : (low <=? high) = false) by (apply Z.leb_gt; lia).
    rewrite E. discriminate.
  - destruct (low <=? high) eqn:E; [|discriminate].
    apply Z.leb_le in E. cbn zeta.
    pose proof (mid_bounds low high E) as Hmid.
    unfold get_block.
    destruct (eth_get_block w3 (by_number ((low + high) / 2))) as [b|];
      cbn [call]; [|discriminate].
    destruct (timestamp b >=? target); cbn [fst]; apply IH; lia.
Qed.

Lemma find_block_by_timestamp_no_zero_division (w3 : Web3) (target : Z) :
  find_block_by_timestamp w3 target <> Raise ZeroDivisionError.
Proof.
  unfold find_block_by_timestamp, find_block_run. cbn zeta.
  apply (search_loop_no_zero_division w3 target
           (Z.to_nat (block_number w3 + 1 - 1))). lia.
Qed.

Lemma get_pps_at_block_no_zero_division (contract : Contract) (block : Z) :
  get_pps_at_block contract block <> Raise ZeroDivisionError.
Proof.
  unfold get_pps_at_block.
  apply bind_no_zero_division; [apply call_no_zero_division|]. intros a _.
  apply bind_no_zero_division; [apply call_no_zero_division|]. intros s _.
  destruct (s =? 0) eqn:E; [discriminate|].
  apply bind_no_zero_division; [|discriminate].
  intros H. apply int_truediv_zero_iff in H. apply Z.eqb_neq in E. contradiction.
Qed.

Lemma main_apr_no_zero_division (pps_now pps_past : float)
  (latest_ts past_ts_actual : Z) :
  main_apr pps_now pps_past latest_ts past_ts_actual <> Raise ZeroDivisionError.
Proof.
  destruct (PrimFloat.eqb pps_past 0%float) eqn:E.
  - unfold main_apr. rewrite E. discriminate.
  - rewrite main_apr_unfold by exact E.
    destruct (latest_ts - past_ts_actual <=? 0) eqn:Hle; [discriminate|].
    apply Z.leb_gt in Hle.
    destruct (days_interval_cases _ Hle) as [[Ho _]|[m [e [Hok [Hsf _]]]]].
    + rewrite Ho. discriminate.
    + rewrite Hok. cbn [bind]. unfold float_truediv.
      rewrite (B64.nonzero_of_finite _ _ _ _ Hsf). discriminate.
Qed.

(** One statement of a sequence: it does not end with [ZeroDivisionError],
    and the rest is run on its value. *)
Ltac step_no_zero_division :=
  apply bind_no_zero_division;
  [ first [ apply call_no_zero_division
          | apply to_datetime_no_zero_division
          | apply find_block_by_timestamp_no_zero_division
          | apply get_pps_at_block_no_zero_division
          | apply main_apr_no_zero_division ]
  | intros ? _ ].

(** C10.  No run reaches a division by zero: neither [get_pps_at_block] at
    any block of any contract, nor the APR computation on any samples and
    timestamps, nor [main] on any node and contract ends with
    [ZeroDivisionError].  [total_assets / total_supply] is behind the test of
    [total_supply == 0], [pps_now / pps_past] behind the test of
    [pps_past == 0], [365.0 / days_interval] behind the test of
    [dt_seconds <= 0], after which [dt_seconds / 86400] is a float above
    zero; the other divisors are the constants 86400, [LOOKBACK_DAYS = 7]
    and 2. *)
Theorem division_by_zero_unreachable (w3 : Web3) (stolas : Contract)
  (block : Z) (pps_now pps_past : float) (latest_ts past_ts_actual : Z) :
  get_pps_at_block stolas block <> Raise ZeroDivisionError /\
  main_apr pps_now pps_past latest_ts past_ts_actual <> Raise ZeroDivisionError /\
  main w3 stolas <> Raise ZeroDivisionError.
Proof.
  split; [apply get_pps_at_block_no_zero_division|].
  split; [apply main_apr_no_zero_division|].
  unfold main. destruct (negb (is_connected w3)); [discriminate|].
  unfold get_block. repeat step_no_zero_division. discriminate.
Qed.

(** * Further properties of the script *)

(** ** The locator on any node *)

(** The probes of the loop stay inside the interval it was given. *)
Lemma search_loop_probes_range (w3 : Web3) (target : Z) (n : nat) :
  forall low high best,
    (Z.to_nat (high + 1 - low) <= n)%nat ->
    Forall (fun p => low <= p <= high) (snd (search_loop w3 target low high best)).
Proof.
  induction n as [|n IH]; intros low high best Hn; rewrite search_loop_eq.
  - assert (E : (low <=? high) = false) by (apply Z.leb_gt; lia).
    rewrite E. constructor.
  - destruct (low <=? high) eqn:E; [|constructor].
    apply Z.leb_le in E. cbn zeta.
    pose proof (mid_bounds low high E) as Hmid.
    set (mid := (low + high) / 2) in *.
    destruct (get_block w3 (by_number mid)) as [b|e];
      [|constructor; [lia|constructor]].
    destruct (timestamp b >=? target); cbn [snd]; constructor; try lia.
    + eapply Forall_impl; [|apply (IH low (mid - 1) mid); lia].
      cbn beta. intros p Hp. lia.
    + eapply Forall_impl; [|apply (IH (mid + 1) high best); lia].
      cbn beta. intros p Hp. lia.
Qed.

Lemma search_loop_probes_nodup (w3 : Web3) (target : Z) (n : nat) :
  forall low high best,
    (Z.to_nat (high + 1 - low) <= n)%nat ->
    NoDup (snd (search_loop w3 target low high best)).
Proof.
  induction n as [|n IH]; intros low high best Hn; rewrite search_loop_eq.
  - assert (E : (low <=? high) = false) by (apply Z.leb_gt; lia).
    rewrite E. constructor.
  - destruct (low <=? high) eqn:E; [|constructor].
    apply Z.leb_le in E. cbn zeta.
    pose proof (mid_bounds low high E) as Hmid.
    set (mid := (low + high) / 2) in *.
    destruct (get_block w3 (by_number mid)) as [b|e];
      [|constructor; [intros []|constructor]].
    destruct (timestamp b >=? target); cbn [snd]; constructor.
    + intros Hin.
      pose proof (search_loop_probes_range w3 target
                    (Z.to_nat (mid - 1 + 1 - low)) low (mid - 1) mid (le_n _)) as Hr.
      rewrite Forall_forall in Hr. specialize (Hr mid Hin). lia.
    + apply IH. lia.
    + intros Hin.
      pose proof (search_loop_probes_range w3 target
                    (Z.to_nat (high + 1 - (mid + 1))) (mid + 1) high best (le_n _)) as Hr.
      rewrite Forall_forall in Hr. specialize (Hr mid Hin). lia.
    + apply IH. lia.
Qed.

(** X1.  Whatever the node answers and whatever the target,
    [find_block_by_timestamp] asks only for blocks of [1 .. latest]: never
    for the genesis block, never for a block above the chain height. *)
Theorem find_block_probes_in_range (w3 : Web3) (target : Z) :
  Forall (fun p => 1 <= p <= block_number w3) (find_block_probes w3 target).
Proof.
  unfold find_block_probes, find_block_run. cbn zeta.
  apply (search_loop_probes_range w3 target (Z.to_nat (block_number w3 + 1 - 1))).
  lia.
Qed.

(** X2.  Whatever the node answers, [find_block_by_timestamp] never asks for
    the same block twice. *)
Theorem find_block_probes_distinct (w3 : Web3) (target : Z) :
  NoDup (find_block_probes w3 target).
Proof.
  unfold find_block_probes, find_block_run. cbn zeta.
  apply (search_loop_probes_nodup w3 target (Z.to_nat (block_number w3 + 1 - 1))).
  lia.
Qed.



(** X4.  On a node that has the blocks [1 .. latest], [latest >= 1], with
    timestamps in any order, [find_block_by_timestamp] returns a block [b] of
    [1 .. latest] that is either a crossing ([timestamp(b) >= target], and
    [b] is 1 or [timestamp(b - 1) < target]) or the latest block with
    [timestamp(latest) < target]. *)
Theorem find_block_by_timestamp_crossing (w3 : Web3) (ts : Z -> Z) (target : Z) :
  serves w3 ts ->
  1 <= block_number w3 ->
  exists b,
    find_block_by_timestamp w3 target = Ok b /\
    1 <= b <= block_number w3 /\
    ((target <= ts b /\ (b = 1 \/ ts (b - 1) < target)) \/
     (b = block_number w3 /\ ts (block_number w3) < target)).
Proof.
  intros Hs Hlatest.
  unfold find_block_by_timestamp, find_block_run. cbn zeta.
  destruct (search_loop_inv w3 ts target Hs (Z.to_nat (block_number w3))
              1 (block_number w3) (block_number w3))
    as [r [Hr Hcases]]; try lia.
  exists r. split; [exact Hr|].
  destruct Hcases as [[-> [H0|Hlt]]|[Hrange Hcross]].
  - lia.
  - split; [lia|]. right. split; [reflexivity|exact Hlt].
  - split; [exact Hrange|]. left. exact Hcross.
Qed.

Lemma shuffled_serves : serves Runs.shuffled Runs.shuffled_timestamps.
Proof.
  intros n Hn. cbn in Hn.
  exists {| number := n; timestamp := Runs.shuffled_timestamps n |}.
  cbn. assert (E : (0 <=? n) && (n <=? 10) = true)
    by (apply andb_true_iff; split; apply Z.leb_le; lia).
  rewrite E. split; reflexivity.
Qed.

Lemma find_block_by_timestamp_crossing_witness :
  serves Runs.shuffled Runs.shuffled_timestamps /\
  1 <= block_number Runs.shuffled /\
  exists b,
    find_block_by_timestamp Runs.shuffled 145 = Ok b /\
    1 <= b <= block_number Runs.shuffled /\
    ((145 <= Runs.shuffled_timestamps b /\
      (b = 1 \/ Runs.shuffled_timestamps (b - 1) < 145)) \/
     (b = block_number Runs.shuffled /\
      Runs.shuffled_timestamps (block_number Runs.shuffled) < 145)).
Proof.
  split; [exact shuffled_serves|]. split; [cbn; lia|].
  apply (find_block_by_timestamp_crossing Runs.shuffled Runs.shuffled_timestamps 145).
  - exact shuffled_serves.
  - cbn; lia.
Defined.

(** X5.  On a chain whose timestamps do not decrease, a later target never
    gives an earlier block. *)
Theorem find_block_by_timestamp_monotone (w3 : Web3) (ts : Z -> Z)
  (target target' : Z) :
  serves w3 ts ->
  non_decreasing ts (block_number w3) ->
  1 <= block_number w3 ->
  target <= target' ->
  exists b b',
    find_block_by_timestamp w3 target = Ok b /\
    find_block_by_timestamp w3 target' = Ok b' /\
    b <= b'.
Proof.
  intros Hs Hmono Hlatest Hle.
  unfold find_block_by_timestamp, find_block_run. cbn zeta.
  destruct (search_loop_inv w3 ts target Hs (Z.to_nat (block_number w3))
              1 (block_number w3) (block_number w3))
    as [r [Hr Hc]]; try lia.
  destruct (search_loop_inv w3 ts target' Hs (Z.to_nat (block_number w3))
              1 (block_number w3) (block_number w3))
    as [r' [Hr' Hc']]; try lia.
  exists r, r'. split; [exact Hr|]. split; [exact Hr'|].
  destruct Hc' as [[-> _]|[Hrange' [Hge' _]]].
  - destruct Hc as [[-> _]|[Hrange _]]; lia.
  - destruct Hc as [[-> [H0|Hlt]]|[Hrange [_ [->|Hprev]]]]; try lia.
    + pose proof (Hmono r' (block_number w3) ltac:(lia) ltac:(lia) ltac:(lia)). lia.
    + destruct (Z_le_gt_dec r r') as [Hc|Hc]; [exact Hc|].
      pose proof (Hmono r' (r - 1) ltac:(lia) ltac:(lia) ltac:(lia)). lia.
Qed.

Lemma find_block_by_timestamp_monotone_witness :
  serves Scenario.w3 Scenario.timestamps /\
  non_decreasing Scenario.timestamps (block_number Scenario.w3) /\
  1 <= block_number Scenario.w3 /\
  125 <= 145 /\
  exists b b',
    find_block_by_timestamp Scenario.w3 125 = Ok b /\
    find_block_by_timestamp Scenario.w3 145 = Ok b' /\
    b <= b'.
Proof.
  split; [exact scenario_serves|].
  split; [exact scenario_non_decreasing|].
  split; [cbn; lia|]. split; [lia|].
  apply (find_block_by_timestamp_monotone Scenario.w3 Scenario.timestamps 125 145).
  - exact scenario_serves.
  - exact scenario_non_decreasing.
  - cbn; lia.
  - lia.
Defined.

(** The loop reads the node through the blocks of its interval only. *)
Lemma search_loop_same_chain (w3 w3' : Web3) (target : Z) (n : nat) :
  forall low high best,
    (Z.to_nat (high + 1 - low) <= n)%nat ->
    (forall p, low <= p <= high ->
       eth_get_block w3 (by_number p) = eth_get_block w3' (by_number p)) ->
    search_loop w3 target low high best = search_loop w3' target low high best.
Proof.
  induction n as [|n IH]; intros low high best Hn Hsame;
    rewrite (search_loop_eq w3), (search_loop_eq w3').
  - assert (E : (low <=? high) = false) by (apply Z.leb_gt; lia).
    rewrite E. reflexivity.
  - destruct (low <=? high) eqn:E; [|reflexivity].
    apply Z.leb_le in E. cbn zeta.
    pose proof (mid_bounds low high E) as Hmid.
    set (mid := (low + high) / 2) in *. unfold get_block.
    rewrite <- (Hsame mid Hmid).
    destruct (eth_get_block w3 (by_number mid)) as [b|]; cbn [call]; [|reflexivity].
    destruct (timestamp b >=? target).
    + rewrite (IH low (mid - 1) mid); [reflexivity|lia|].
      intros p Hp. apply Hsame. lia.
    + rewrite (IH (mid + 1) high best); [reflexivity|lia|].
      intros p Hp. apply Hsame. lia.
Qed.

(** X6.  [find_block_by_timestamp] depends on the node through the chain
    height and the blocks [1 .. latest] only: two nodes that agree on these
    give the same result after the same probes, whatever they answer for the
    genesis block, for ["latest"] or for [is_connected]. *)
Theorem find_block_by_timestamp_same_chain (w3 w3' : Web3) (target : Z) :
  same_chain w3 w3' ->
  find_block_by_timestamp w3 target = find_block_by_timestamp w3' target /\
  find_block_probes w3 target = find_block_probes w3' target.
Proof.
  intros [Hh Hb].
  unfold find_block_by_timestamp, find_block_probes, find_block_run. cbn zeta.
  rewrite <- Hh.
  rewrite (search_loop_same_chain w3 w3' target
             (Z.to_nat (block_number w3 + 1 - 1)) 1 (block_number w3)
             (block_number w3) ltac:(lia) Hb).
  split; reflexivity.
Qed.

Lemma scenario_offline_same_chain : same_chain Scenario.w3 Runs.offline.
Proof. split; [reflexivity|]. intros n _. reflexivity. Qed.

Lemma find_block_by_timestamp_same_chain_witness :
  same_chain Scenario.w3 Runs.offline /\
  find_block_by_timestamp Scenario.w3 145
  = find_block_by_timestamp Runs.offline 145 /\
  find_block_probes Scenario.w3 145 = find_block_probes Runs.offline 145.
Proof.
  split; [exact scenario_offline_same_chain|].
  apply (find_block_by_timestamp_same_chain Scenario.w3 Runs.offline 145).
  exact scenario_offline_same_chain.
Defined.

(** ** The reader on any vault *)

Lemma int_truediv_uint256 (a s : Z) :
  uint256 a -> uint256 s -> s <> 0 -> int_truediv a s = Ok (Spec.ratio a s).
Proof.
  intros [Ha0 Ha1] [Hs0 Hs1] Hnz.
  destruct (Z.eq_dec a 0) as [->|Hanz].
  - unfold int_truediv, Spec.ratio, int_quotient.
    destruct s; try lia; reflexivity.
  - assert (Hsd : B64.digits s <= 256) by (apply B64.digits_le_of_lt_pow2; lia).
    assert (Had : B64.digits a <= 256) by (apply B64.digits_le_of_lt_pow2; lia).
    pose proof (B64.digits_bounds s ltac:(lia)) as [Hsd1 _].
    destruct (B64.int_truediv_pos a s ltac:(lia) ltac:(lia) ltac:(lia))
      as [[_ Hb]|[m [e [Hdiv _]]]]; [lia|exact Hdiv].
Qed.

Lemma ratio_self (v : Z) : v <> 0 -> Spec.ratio v v = 1%float.
Proof.
  intros Hv. unfold Spec.ratio, int_quotient.
  destruct v as [|p|p]; [contradiction| |]; cbn [int_to_SF];
    rewrite B64.SFdiv_self; vm_compute; reflexivity.
Qed.

(** X7.  A vault with as many assets as shares, and at least one share, has
    a price per share of exactly 1.0, however large the two amounts are. *)
Theorem get_pps_at_block_par (contract : Contract) (block v : Z) :
  totalAssets contract block = Some v ->
  totalSupply contract block = Some v ->
  v <> 0 ->
  get_pps_at_block contract block = Ok 1%float.
Proof.
  intros Ha Hs Hv. unfold get_pps_at_block. rewrite Ha, Hs. cbn [call bind].
  assert (E : (v =? 0) = false) by (apply Z.eqb_neq; exact Hv). rewrite E.
  unfold int_truediv. rewrite E.
  pose proof (ratio_self v Hv) as H1. unfold Spec.ratio in H1.
  unfold int_quotient in *. destruct v as [|p|p]; [contradiction| |];
    cbn [int_to_SF] in *; rewrite B64.SFdiv_self in *; cbn [bind];
    reflexivity.
Qed.

Lemma get_pps_at_block_par_witness :
  totalAssets Runs.at_par 10 = Some 5000 /\
  totalSupply Runs.at_par 10 = Some 5000 /\
  5000 <> 0 /\
  get_pps_at_block Runs.at_par 10 = Ok 1%float.
Proof.
  split; [reflexivity|]. split; [reflexivity|]. split; [lia|].
  apply (get_pps_at_block_par Runs.at_par 10 5000).
  - reflexivity.
  - reflexivity.
  - lia.
Defined.

(** X8.  From [uint256] answers with shares outstanding, the price per share
    read is never negative, infinite or a NaN: it is 0.0 when the vault has no
    assets and a positive finite float otherwise. *)
Theorem get_pps_at_block_range (contract : Contract)
  (block total_assets total_supply : Z) :
  totalAssets contract block = Some total_assets ->
  totalSupply contract block = Some total_supply ->
  uint256 total_assets -> uint256 total_supply -> total_supply <> 0 ->
  exists pps,
    get_pps_at_block contract block = Ok pps /\
    (total_assets = 0 -> pps = 0%float) /\
    (0 < total_assets ->
     PrimFloat.ltb 0%float pps = true /\ PrimFloat.ltb pps infinity = true).
Proof.
  intros Ha Hs Hua Hus Hnz. exists (Spec.ratio total_assets total_supply).
  split.
  - unfold get_pps_at_block. rewrite Ha, Hs. cbn [call bind].
    assert (E : (total_supply =? 0) = false) by (apply Z.eqb_neq; exact Hnz).
    rewrite E, (int_truediv_uint256 _ _ Hua Hus Hnz). reflexivity.
  - destruct (pps_sample_finite _ _ Hua Hus Hnz) as [H0|Hpos].
    + split; [intros _; exact H0|]. intros Hap. exfalso.
      destruct Hua as [Ha0 Ha1]. destruct Hus as [Hs0 Hs1].
      assert (Hsd : B64.digits total_supply <= 256)
        by (apply B64.digits_le_of_lt_pow2; lia).
      destruct (B64.int_truediv_pos total_assets total_supply
                  ltac:(lia) ltac:(lia) ltac:(lia))
        as [[Ho _]|[m [e [_ [Hsf _]]]]].
      * rewrite (int_truediv_uint256 total_assets total_supply) in Ho;
          [discriminate|split; lia|split; lia|exact Hnz].
      * rewrite H0 in Hsf. discriminate.
    + split; [|intros _; exact Hpos]. intros ->.
      destruct Hpos as [Hp _]. exfalso.
      unfold Spec.ratio, int_quotient in Hp.
      destruct total_supply; try lia; discriminate.
Qed.

Lemma get_pps_at_block_range_witness :
  totalAssets Scenario.stolas 6 = Some 150 /\
  totalSupply Scenario.stolas 6 = Some 100 /\
  uint256 150 /\ uint256 100 /\ 100 <> 0 /\
  exists pps,
    get_pps_at_block Scenario.stolas 6 = Ok pps /\
    (150 = 0 -> pps = 0%float) /\
    (0 < 150 ->
     PrimFloat.ltb 0%float pps = true /\ PrimFloat.ltb pps infinity = true).
Proof.
  assert (U : forall v, 0 <= v < 2 ^ 8 -> uint256 v).
  { intros v Hv. unfold uint256.
    assert (2 ^ 8 <= 2 ^ 256) by (apply Z.pow_le_mono_r; lia). lia. }
  split; [reflexivity|]. split; [reflexivity|].
  split; [apply U; cbn; lia|]. split; [apply U; cbn; lia|]. split; [lia|].
  apply (get_pps_at_block_range Scenario.stolas 6 150 100).
  - reflexivity.
  - reflexivity.
  - apply U; cbn; lia.
  - apply U; cbn; lia.
  - lia.
Defined.


(** ** Whole runs of [main] *)


(** What the APR computation has tested when it returns figures. *)
Lemma main_apr_ok_guards (pps_now pps_past : float) (latest_ts past_ts : Z)
  (f : Figures) :
  main_apr pps_now pps_past latest_ts past_ts = Ok f ->
  PrimFloat.eqb pps_past 0%float = false /\
  0 < latest_ts - past_ts /\
  PrimFloat.ltb 0%float (days_interval f) = true.
Proof.
  intros H. destruct (PrimFloat.eqb pps_past 0%float) eqn:E.
  - unfold main_apr in H. rewrite E in H. discriminate.
  - split; [reflexivity|]. rewrite main_apr_unfold in H by exact E.
    destruct (latest_ts - past_ts <=? 0) eqn:Hle; [discriminate|].
    apply Z.leb_gt in Hle. split; [lia|].
    destruct (days_interval_cases _ Hle) as [[Ho _]|[m [e [Hok [Hsf _]]]]].
    + rewrite Ho in H. discriminate.
    + rewrite Hok in H. cbn [bind] in H. unfold float_truediv in H.
      rewrite (B64.nonzero_of_finite _ _ _ _ Hsf) in H. cbn [bind] in H.
      injection H as <-. cbn [days_interval].
      rewrite ltb_spec, Hsf. reflexivity.
Qed.


(** A run of [main] that ends with a report, read backwards. *)
Lemma main_ok_blocks (w3 : Web3) (stolas : Contract) (report : Report) :
  main w3 stolas = Ok report ->
  exists latest_block past_block latest_dt past_dt,
    is_connected w3 = true /\
    eth_get_block w3 latest_id = Some latest_block /\
    latest_number report = number latest_block /\
    target_ts report = timestamp latest_block - LOOKBACK_SECONDS /\
    to_datetime (timestamp latest_block) = Ok latest_dt /\
    find_block_by_timestamp w3 (target_ts report) = Ok (past_block_num report) /\
    eth_get_block w3 (by_number (past_block_num report)) = Some past_block /\
    past_ts_actual report = timestamp past_block /\
    to_datetime (timestamp past_block) = Ok past_dt /\
    main_apr (pps_now report) (pps_past report) (timestamp latest_block)
      (timestamp past_block) = Ok (figures report).
Proof.
  unfold main. destruct (is_connected w3); cbn [negb]; [|discriminate].
  unfold get_block.
  destruct (eth_get_block w3 latest_id) as [latest_block|] eqn:E1;
    cbn [call bind]; [|discriminate].
  destruct (to_datetime (timestamp latest_block)) as [latest_dt|] eqn:E2;
    [|discriminate]. cbn [bind].
  destruct (to_datetime (timestamp latest_block - LOOKBACK_SECONDS))
    as [target_dt|] eqn:E3; [|discriminate]. cbn [bind].
  destruct (find_block_by_timestamp w3 (timestamp latest_block - LOOKBACK_SECONDS))
    as [past_num|] eqn:E4; [|discriminate]. cbn [bind].
  destruct (eth_get_block w3 (by_number past_num)) as [past_block|] eqn:E5;
    cbn [call bind]; [|discriminate].
  destruct (to_datetime (timestamp past_block)) as [past_dt|] eqn:E6;
    [|discriminate]. cbn [bind].
  destruct (get_pps_at_block stolas (number latest_block)) as [p_now|] eqn:E7;
    [|discriminate]. cbn [bind].
  destruct (get_pps_at_block stolas past_num) as [p_past|] eqn:E8;
    [|discriminate]. cbn [bind].
  destruct (main_apr p_now p_past (timestamp latest_block) (timestamp past_block))
    as [f|] eqn:E9; [|discriminate]. cbn [bind].
  intros [= <-]. cbn.
  exists latest_block, past_block, latest_dt, past_dt.
  repeat (split; [first [reflexivity | assumption]|]). exact E9.
Qed.



(** X10.  Every report of [main] has a measured window that is strictly
    positive and shorter than [2^39] seconds, a target exactly 604800 seconds
    before the timestamp of the latest block, a past price per share that is
    not zero, and a positive number of days. *)
Theorem main_report_window (w3 : Web3) (stolas : Contract) (report : Report) :
  main w3 stolas = Ok report ->
  exists latest_block,
    eth_get_block w3 latest_id = Some latest_block /\
    latest_number report = number latest_block /\
    target_ts report = timestamp latest_block - 604800 /\
    0 < timestamp latest_block - past_ts_actual report < 2 ^ 39 /\
    PrimFloat.eqb (pps_past report) 0%float = false /\
    PrimFloat.ltb 0%float (days_interval (figures report)) = true.
Proof.
  intros H.
  destruct (main_ok_blocks _ _ _ H)
    as [lb [pb [ld [pd [_ [E1 [Hn [Ht [E2 [_ [_ [Hp [E6 E9]]]]]]]]]]]]].
  destruct (main_apr_ok_guards _ _ _ _ _ E9) as [Hnz [Hpos Hdays]].
  exists lb. split; [exact E1|]. split; [exact Hn|]. split; [exact Ht|].
  rewrite Hp. split; [|split; assumption].
  split; [exact Hpos|exact (elapsed_bound _ _ _ _ E2 E6)].
Qed.

Lemma daily_run : main Runs.daily Runs.growing = Ok Runs.daily_report.
Proof. vm_compute. reflexivity. Qed.

Lemma main_report_window_witness :
  main Runs.daily Runs.growing = Ok Runs.daily_report /\
  exists latest_block,
    eth_get_block Runs.daily latest_id = Some latest_block /\
    latest_number Runs.daily_report = number latest_block /\
    target_ts Runs.daily_report = timestamp latest_block - 604800 /\
    0 < timestamp latest_block - past_ts_actual Runs.daily_report < 2 ^ 39 /\
    PrimFloat.eqb (pps_past Runs.daily_report) 0%float = false /\
    PrimFloat.ltb 0%float (days_interval (figures Runs.daily_report)) = true.
Proof.
  split; [exact daily_run|].
  apply (main_report_window Runs.daily Runs.growing Runs.daily_report).
  exact daily_run.
Defined.

(** X11.  On a node whose ["latest"] block is the block at the chain height
    and whose timestamps do not decrease, every report of [main] is about the
    earliest block at or after the target, and its measured window is never
    longer than the 604800 seconds of the lookback. *)
Theorem main_report_within_lookback (w3 : Web3) (stolas : Contract)
  (ts : Z -> Z) (report : Report) :
  main w3 stolas = Ok report ->
  serves w3 ts ->
  non_decreasing ts (block_number w3) ->
  tip_consistent w3 ts ->
  1 <= block_number w3 ->
  1 <= past_block_num report <= block_number w3 /\
  past_ts_actual report = ts (past_block_num report) /\
  target_ts report = ts (block_number w3) - LOOKBACK_SECONDS /\
  target_ts report <= past_ts_actual report /\
  (forall b, 1 <= b -> b < past_block_num report -> ts b < target_ts report) /\
  0 < ts (block_number w3) - past_ts_actual report <= LOOKBACK_SECONDS.
Proof.
  intros H Hs Hmono [tip [Htip [_ Htts]]] Hlatest.
  destruct (main_ok_blocks _ _ _ H)
    as [lb [pb [ld [pd [_ [E1 [_ [Ht [_ [E4 [E5 [Hp [_ E9]]]]]]]]]]]]].
  rewrite Htip in E1. injection E1 as <-. rewrite Htts in *.
  destruct (main_apr_ok_guards _ _ _ _ _ E9) as [_ [Hpos _]].
  unfold find_block_by_timestamp, find_block_run in E4. cbn zeta in E4.
  destruct (search_loop_inv w3 ts (target_ts report) Hs
              (Z.to_nat (block_number w3)) 1 (block_number w3) (block_number w3))
    as [r [Hr Hcases]]; try lia.
  rewrite E4 in Hr. injection Hr as <-.
  assert (Hlook : 0 <= LOOKBACK_SECONDS) by (unfold LOOKBACK_SECONDS, LOOKBACK_DAYS; lia).
  destruct Hcases as [[_ [H0|Hlt]]|[Hrange [Hge Hprev]]]; try lia.
  destruct (Hs (past_block_num report) Hrange) as [b [Hb Hbts]].
  rewrite Hb in E5. injection E5 as <-.
  rewrite Hp, Hbts in *.
  split; [exact Hrange|]. split; [reflexivity|]. split; [exact Ht|].
  split; [exact Hge|]. split; [|lia].
  intros b' H1 H2. destruct Hprev as [Hone|Hprev]; [lia|].
  apply Z.le_lt_trans with (ts (past_block_num report - 1)); [|exact Hprev].
  apply Hmono; lia.
Qed.

Lemma daily_serves : serves Runs.daily Runs.daily_timestamps.
Proof.
  intros n Hn. unfold Runs.daily in *. cbn [block_number eth_get_block] in *.
  exists {| number := n; timestamp := Runs.daily_timestamps n |}.
  assert (E : (0 <=? n) && (n <=? 10) = true)
    by (apply andb_true_iff; split; apply Z.leb_le; lia).
  rewrite E. split; reflexivity.
Qed.

Lemma daily_non_decreasing : non_decreasing Runs.daily_timestamps 10.
Proof. intros a b _ Hab _. unfold Runs.daily_timestamps. lia. Qed.

Lemma daily_tip_consistent : tip_consistent Runs.daily Runs.daily_timestamps.
Proof. eexists. split; [reflexivity|]. split; reflexivity. Qed.

Lemma main_report_within_lookback_witness :
  main Runs.daily Runs.growing = Ok Runs.daily_report /\
  serves Runs.daily Runs.daily_timestamps /\
  non_decreasing Runs.daily_timestamps (block_number Runs.daily) /\
  tip_consistent Runs.daily Runs.daily_timestamps /\
  1 <= block_number Runs.daily /\
  1 <= past_block_num Runs.daily_report <= block_number Runs.daily /\
  past_ts_actual Runs.daily_report
  = Runs.daily_timestamps (past_block_num Runs.daily_report) /\
  target_ts Runs.daily_report
  = Runs.daily_timestamps (block_number Runs.daily) - LOOKBACK_SECONDS /\
  target_ts Runs.daily_report <= past_ts_actual Runs.daily_report /\
  (forall b, 1 <= b -> b < past_block_num Runs.daily_report ->
             Runs.daily_timestamps b < target_ts Runs.daily_report) /\
  0 < Runs.daily_timestamps (block_number Runs.daily)
      - past_ts_actual Runs.daily_report <= LOOKBACK_SECONDS.
Proof.
  split; [exact daily_run|]. split; [exact daily_serves|].
  split; [exact daily_non_decreasing|]. split; [exact daily_tip_consistent|].
  split; [cbn; lia|].
  apply (main_report_within_lookback Runs.daily Runs.growing
           Runs.daily_timestamps Runs.daily_report).
  - exact daily_run.
  - exact daily_serves.
  - exact daily_non_decreasing.
  - exact daily_tip_consistent.
  - cbn; lia.
Defined.





(** X13.  When the measured interval is exactly the 604800 seconds of the
    lookback and [pps_past] is not zero, the APR computation returns figures
    with 7.0 days, and its two APR figures are the same float. *)
Theorem main_apr_exact_lookback (pps_now pps_past : float)
  (latest_ts past_ts_actual : Z) :
  PrimFloat.eqb pps_past 0%float = false ->
  latest_ts - past_ts_actual = LOOKBACK_SECONDS ->
  exists f,
    main_apr pps_now pps_past latest_ts past_ts_actual = Ok f /\
    days_interval f = 7%float /\
    apr_real f = apr_7d_window f.
Proof.
  intros Hnz Hdt.
  assert (E7 : Spec.ratio 604800 86400 = 7%float) by (vm_compute; reflexivity).
  exists (Spec.APRCalculator pps_now pps_past LOOKBACK_DAYS
            (latest_ts - past_ts_actual)).
  split.
  - apply main_apr_eval; [exact Hnz| |]; rewrite Hdt;
      unfold LOOKBACK_SECONDS, LOOKBACK_DAYS.
    + lia.
    + change (2 ^ 39) with 549755813888. lia.
  - rewrite Hdt. unfold Spec.APRCalculator, Spec.apr_actual, Spec.apr_nominal,
      Spec.elapsed_days_actual. cbn [days_interval apr_real apr_7d_window].
    change LOOKBACK_SECONDS with 604800. change LOOKBACK_DAYS with 7.
    rewrite E7, of_int_7. split; reflexivity.
Qed.

Lemma main_apr_exact_lookback_witness :
  PrimFloat.eqb 1.5%float 0%float = false /\
  604990 - 190 = LOOKBACK_SECONDS /\
  exists f,
    main_apr 2%float 1.5%float 604990 190 = Ok f /\
    days_interval f = 7%float /\
    apr_real f = apr_7d_window f.
Proof.
  split; [reflexivity|]. split; [reflexivity|].
  apply (main_apr_exact_lookback 2%float 1.5%float 604990 190); reflexivity.
Defined.

(** ** The sign of the APR figures *)

Module B64Sign.

Local Abbreviation digits := SpecFloat.Zdigits2.
Local Abbreviation fexp := (SpecFloat.fexp prec emax).

Local Abbreviation nonneg := SF_nonneg.

Lemma shr_fexp_nonneg (m e : Z) (l : location) :
  0 <= m -> 0 <= shr_m (fst (shr_fexp prec emax m e l)).
Proof.
  intros Hm. unfold shr_fexp, shr.
  destruct (fexp (digits m + e) - e) as [|p|p]; cbn [fst];
    rewrite ?B64.shr_m_iter by (rewrite B64.shr_m_of_loc; exact Hm);
    rewrite B64.shr_m_of_loc; try exact Hm.
  apply Z.div_pos; [exact Hm|]. apply Z.pow_pos_nonneg; lia.
Qed.

(** Rounding a positive mantissa keeps the sign and gives no NaN. *)
Lemma binary_round_aux_sign (s : bool) (m e : Z) (l : location) :
  0 <= m ->
  match binary_round_aux prec emax s m e l with
  | S754_nan => False
  | S754_zero s' | S754_infinity s' | S754_finite s' _ _ => s' = s
  end.
Proof.
  intros Hm. unfold binary_round_aux.
  pose proof (shr_fexp_nonneg m e l Hm) as H0.
  destruct (shr_fexp prec emax m e l) as [mrs' e1]. cbn [fst] in H0.
  pose proof (B64.round_nearest_even_bounds (shr_m mrs') (loc_of_shr_record mrs'))
    as Hr.
  set (m1 := round_nearest_even (shr_m mrs') (loc_of_shr_record mrs')) in *.
  pose proof (shr_fexp_nonneg m1 e1 loc_Exact ltac:(lia)) as H1.
  destruct (shr_fexp prec emax m1 e1 loc_Exact) as [mrs'' e2]. cbn [fst] in H1.
  destruct (shr_m mrs'') as [|p|p]; [reflexivity| |lia].
  destruct (e2 <=? emax - prec); reflexivity.
Qed.

Lemma binary_round_nonneg (m : positive) (e : Z) :
  nonneg (binary_round prec emax false m e).
Proof.
  unfold binary_round.
  destruct (shl_align m e (fexp (Z.pos (digits2_pos m) + e))) as [mz ez].
  pose proof (binary_round_aux_sign false (Z.pos mz) ez loc_Exact ltac:(lia)) as H.
  destruct (binary_round_aux prec emax false (Z.pos mz) ez loc_Exact)
    as [s|s| |s m' e']; try contradiction; subst s; exact I.
Qed.

Lemma mul_nonneg (a b : spec_float) (mb : positive) (eb : Z) :
  nonneg a -> b = S754_finite false mb eb -> nonneg (SF64mul a b).
Proof.
  intros Ha ->. unfold SF64mul.
  destruct a as [sa|[|]| |[|] ma ea]; try contradiction; cbn [SFmul xorb];
    try exact I.
  pose proof (binary_round_aux_sign false (Z.pos (ma * mb)) (ea + eb) loc_Exact
                ltac:(lia)) as H.
  destruct (binary_round_aux prec emax false (Z.pos (ma * mb)) (ea + eb) loc_Exact)
    as [s|s| |s m' e']; try contradiction; subst s; exact I.
Qed.

Lemma nonneg_leb (x : float) :
  nonneg (Prim2SF x) -> PrimFloat.leb 0%float x = true.
Proof.
  intros H. rewrite leb_spec, B64.Prim2SF_zero.
  destruct (Prim2SF x) as [s|[|]| |[|] m e]; try contradiction; reflexivity.
Qed.

Lemma Prim2SF_one : Prim2SF 1%float = S754_finite false 4503599627370496 (-52).
Proof. vm_compute. reflexivity. Qed.

(** A valid finite float, through its canonical exponent. *)
Lemma valid_finite (x : float) (s : bool) (m : positive) (e : Z) :
  Prim2SF x = S754_finite s m e ->
  e = Z.max (digits (Z.pos m) + e - 53) (-1074) /\ e <= 971.
Proof.
  intros E. pose proof (Prim2SF_valid x) as Hv. rewrite E in Hv.
  cbn [valid_binary] in Hv. unfold bounded, canonical_mantissa in Hv.
  apply andb_true_iff in Hv as [Hc Hle].
  apply Z.eqb_eq in Hc. apply Z.leb_le in Hle.
  change (Z.pos (digits2_pos m)) with (digits (Z.pos m)) in Hc.
  rewrite B64.fexp_eq in Hc. change (emax - prec) with 971 in Hle. lia.
Qed.

Lemma pos_compare_cont_le (a b : positive) :
  match Pos.compare_cont Eq a b with Gt => False | _ => True end ->
  Z.pos a <= Z.pos b.
Proof.
  change (Pos.compare_cont Eq a b) with (Pos.compare a b).
  destruct (Pos.compare_spec a b) as [E|E|E]; intros Hc; try contradiction; lia.
Qed.

Lemma pos_le_compare_cont (a b : positive) :
  Z.pos a <= Z.pos b ->
  match Pos.compare_cont Eq a b with Gt => False | _ => True end.
Proof.
  change (Pos.compare_cont Eq a b) with (Pos.compare a b).
  destruct (Pos.compare_spec a b) as [E|E|E]; intros Hc; try exact I; lia.
Qed.

(** Order of two positive finite floats, through exponents and mantissas. *)
Lemma SFleb_finite (m1 m2 : positive) (e1 e2 : Z) :
  SFleb (S754_finite false m1 e1) (S754_finite false m2 e2) = true <->
  (e1 < e2 \/ (e1 = e2 /\ Z.pos m1 <= Z.pos m2)).
Proof.
  unfold SFleb, SFcompare.
  destruct (Z.compare_spec e1 e2) as [E|E|E].
  - subst e2. split.
    + intros H. right. split; [reflexivity|]. apply pos_compare_cont_le.
      destruct (Pos.compare_cont Eq m1 m2); [exact I|exact I|discriminate].
    + intros [H|[_ H]]; [lia|].
      pose proof (pos_le_compare_cont m1 m2 H) as Hc.
      destruct (Pos.compare_cont Eq m1 m2); [reflexivity|reflexivity|contradiction].
  - split; [intros _; left; exact E|reflexivity].
  - split; [discriminate|intros [H|[H _]]; lia].
Qed.

(** The quotient handed to the rounding when the dividend is not below the
    divisor and both have the same width and exponent. *)
Lemma SFdiv_core_binary_ge (m1 m2 : positive) (e q e' : Z) (l : location) :
  SFdiv_core_binary prec emax (Zpos m1) e (Zpos m2) e = (q, e', l) ->
  digits (Zpos m1) = digits (Zpos m2) -> Z.pos m2 <= Z.pos m1 ->
  1 <= digits q + e'.
Proof.
  unfold SFdiv_core_binary. intros H Hd Hle. rewrite Hd in H.
  replace (digits (Z.pos m2) + e - (digits (Z.pos m2) + e)) with 0 in H by lia.
  replace (e - e) with 0 in H by lia.
  change (Z.min (fexp 0) 0) with (-53) in H.
  change (0 - -53) with 53 in H. cbv iota in H.
  change (IntDef.Z.div_eucl (IntDef.Z.shiftl (Z.pos m1) 53) (Z.pos m2))
    with (Z.div_eucl (Z.shiftl (Z.pos m1) 53) (Z.pos m2)) in H.
  destruct (Z.div_eucl (Z.shiftl (Z.pos m1) 53) (Z.pos m2)) as [q0 r0] eqn:E.
  assert (Hq : q0 = Z.shiftl (Z.pos m1) 53 / Z.pos m2)
    by (unfold Z.div; rewrite E; reflexivity).
  injection H as <- <- _. rewrite Z.shiftl_mul_pow2 in Hq by lia.
  assert (Hlo : 2 ^ 53 <= q0).
  { rewrite Hq. apply Z.div_le_lower_bound; [lia|].
    apply Z.mul_le_mono_nonneg_r; [apply Z.pow_nonneg; lia|exact Hle]. }
  assert (Hpos : 0 < q0) by (pose proof (Z.pow_pos_nonneg 2 53); lia).
  destruct (B64.digits_bounds q0 Hpos) as [_ [_ Hhi]].
  destruct (Z_le_gt_dec 54 (digits q0)) as [Hc|Hc]; [lia|exfalso].
  assert (2 ^ digits q0 <= 2 ^ 53) by (apply Z.pow_le_mono_r; lia). lia.
Qed.

(** A positive finite float divided by one that is not above it is at least
    one. *)
Lemma div_ge_one (x y : float) :
  PrimFloat.ltb 0%float y = true -> PrimFloat.ltb x infinity = true ->
  PrimFloat.leb y x = true ->
  PrimFloat.leb 1%float (x / y)%float = true.
Proof.
  intros Hy Hx Hle.
  destruct (B64.positive_cases y Hy) as [[my [ey Ey]]|Ey].
  2:{ rewrite leb_spec, Ey in Hle. rewrite ltb_spec in Hx.
      destruct (Prim2SF x) as [s|[|]| |[|] m e]; discriminate. }
  assert (Ex : exists mx ex, Prim2SF x = S754_finite false mx ex).
  { rewrite leb_spec, Ey in Hle. rewrite ltb_spec in Hx.
    destruct (Prim2SF x) as [s|[|]| |[|] m e]; try discriminate; eauto. }
  destruct Ex as [mx [ex Ex]].
  rewrite leb_spec, Ey, Ex in Hle. apply SFleb_finite in Hle.
  destruct (valid_finite _ _ _ _ Ex) as [Hcx Hbx].
  destruct (valid_finite _ _ _ _ Ey) as [Hcy Hby].
  destruct (B64.digits_bounds (Z.pos mx) ltac:(lia)) as [Hdx [Hlox Hhix]].
  destruct (B64.digits_bounds (Z.pos my) ltac:(lia)) as [Hdy [Hloy Hhiy]].
  assert (HK : 0 <= digits (Z.pos mx) + ex - (digits (Z.pos my) + ey)).
  { destruct Hle as [Hlt|[-> Hm]]; [lia|].
    destruct (Z_le_gt_dec (digits (Z.pos my)) (digits (Z.pos mx))) as [Hc|Hc];
      [lia|exfalso].
    assert (2 ^ digits (Z.pos mx) <= 2 ^ (digits (Z.pos my) - 1))
      by (apply Z.pow_le_mono_r; lia). lia. }
  rewrite leb_spec, div_spec, Ex, Ey, Prim2SF_one. unfold SF64div.
  assert (Hmag :
    match SFdiv prec emax (S754_finite false mx ex) (S754_finite false my ey) with
    | S754_infinity false => True
    | S754_finite false m' e' =>
        e' = Z.max (digits (Z.pos m') + e' - 53) (-1074) /\
        1 <= digits (Z.pos m') + e'
    | _ => False
    end).
  { destruct (Z.eq_dec (digits (Z.pos mx) + ex - (digits (Z.pos my) + ey)) 0)
      as [K0|K0].
    - (* same magnitude: same exponent, and the mantissas decide *)
      assert (Hee : ex = ey /\ Z.pos my <= Z.pos mx /\
                    digits (Z.pos mx) = digits (Z.pos my)).
      { destruct Hle as [Hlt|[-> Hm]]; [lia|]. split; [reflexivity|].
        split; [exact Hm|lia]. }
      destruct Hee as [-> [Hm Hd]]. cbn [SFdiv xorb].
      destruct (SFdiv_core_binary prec emax (Z.pos mx) ey (Z.pos my) ey)
        as [[q e'] l] eqn:E.
      pose proof (SFdiv_core_binary_ge _ _ _ _ _ _ E Hd Hm) as Hq1.
      destruct (B64.SFdiv_core_binary_spec _ _ _ _ _ _ _ E ltac:(lia))
        as [Hq [He' _]].
      pose proof (B64.binary_round_aux_cases false q e' l Hq He') as H.
      destruct (binary_round_aux prec emax false q e' l) as [s|s| |s m' e''].
      + lia.
      + destruct H as [-> _]. exact I.
      + exact H.
      + destruct H as [-> [Hb H]]. specialize (H ltac:(lia)).
        unfold bounded, canonical_mantissa in Hb.
        apply andb_true_iff in Hb as [Hc _]. apply Z.eqb_eq in Hc.
        change (Z.pos (digits2_pos m')) with (digits (Z.pos m')) in Hc.
        rewrite B64.fexp_eq in Hc. split; lia.
    - pose proof (B64.SFdiv_finite_cases false false mx my ex ey ltac:(lia)) as H.
      cbn [xorb] in H.
      destruct (SFdiv prec emax (S754_finite false mx ex) (S754_finite false my ey))
        as [s|s| |s m' e'']; try contradiction.
      + destruct H as [-> _]. exact I.
      + destruct H as [-> [Hb H]].
        unfold bounded, canonical_mantissa in Hb.
        apply andb_true_iff in Hb as [Hc _]. apply Z.eqb_eq in Hc.
        change (Z.pos (digits2_pos m')) with (digits (Z.pos m')) in Hc.
        rewrite B64.fexp_eq in Hc. split; lia. }
  destruct (SFdiv prec emax (S754_finite false mx ex) (S754_finite false my ey))
    as [s|[|]| |[|] m' e']; try contradiction; [reflexivity|].
  destruct Hmag as [Hc H1]. apply SFleb_finite.
  destruct (Z_lt_le_dec (-52) e') as [Hlt|Hge]; [left; exact Hlt|right].
  assert (e' = -52) by lia. split; [lia|].
  destruct (B64.digits_bounds (Z.pos m') ltac:(lia)) as [_ [Hlo' _]].
  assert (Hd53 : digits (Z.pos m') = 53) by lia. rewrite Hd53 in Hlo'.
  exact Hlo'.
Qed.

Lemma shl_align_fst_ge (m : positive) (e e' : Z) :
  Z.pos m <= Z.pos (fst (shl_align m e e')).
Proof.
  unfold shl_align. destruct (e' - e) as [|d|d]; cbn [fst]; try lia.
  induction d as [|d IH] using Pos.peano_ind.
  - cbn. lia.
  - rewrite Pos.iter_succ. rewrite Pos2Z.inj_xO. lia.
Qed.

(** A float that is at least one, less one, is not negative. *)
Lemma sub_one_nonneg (c : float) :
  PrimFloat.leb 1%float c = true -> nonneg (Prim2SF (c - 1)%float).
Proof.
  intros Hle. rewrite sub_spec. rewrite leb_spec, Prim2SF_one in Hle.
  rewrite Prim2SF_one. unfold SF64sub.
  destruct (Prim2SF c) as [s|[|]| |[|] m e] eqn:Ec; try discriminate.
  - exact I.
  - apply SFleb_finite in Hle.
    destruct (valid_finite _ _ _ _ Ec) as [Hc _].
    destruct (B64.digits_bounds (Z.pos m) ltac:(lia)) as [_ [Hlo _]].
    assert (Hm : 2 ^ 52 <= Z.pos m).
    { destruct Hle as [Hlt|[_ Hm]]; [|exact Hm].
      assert (Hd : digits (Z.pos m) = 53) by lia. rewrite Hd in Hlo. exact Hlo. }
    cbn [SFsub cond_Zopp].
    assert (Hez : Z.min e (-52) = -52) by lia. rewrite Hez.
    pose proof (shl_align_fst_ge m e (-52)) as HA.
    change (fst (shl_align 4503599627370496 (-52) (-52))) with 4503599627370496%positive.
    change (2 ^ 52) with 4503599627370496 in Hm.
    destruct (Z.pos (fst (shl_align m e (-52))) - 4503599627370496) as [|d|d] eqn:D;
      cbn [binary_normalize].
    + exact I.
    + apply binary_round_nonneg.
    + lia.
Qed.

(** *** Rounding at or below one *)

Local Abbreviation nonpos := SF_nonpos.

Lemma binary_round_nonpos (m : positive) (e : Z) :
  nonpos (binary_round prec emax true m e).
Proof.
  unfold binary_round.
  destruct (shl_align m e (fexp (Z.pos (digits2_pos m) + e))) as [mz ez].
  pose proof (binary_round_aux_sign true (Z.pos mz) ez loc_Exact ltac:(lia)) as H.
  destruct (binary_round_aux prec emax true (Z.pos mz) ez loc_Exact)
    as [s|s| |s m' e']; try contradiction; subst; exact I.
Qed.

Lemma mul_nonpos (a b : spec_float) (mb : positive) (eb : Z) :
  nonpos a -> b = S754_finite false mb eb -> nonpos (SF64mul a b).
Proof.
  intros Ha ->. unfold SF64mul.
  destruct a as [sa|[|]| |[|] ma ea]; try contradiction; cbn [SFmul xorb];
    try exact I.
  pose proof (binary_round_aux_sign true (Z.pos (ma * mb)) (ea + eb) loc_Exact
                ltac:(lia)) as H.
  destruct (binary_round_aux prec emax true (Z.pos (ma * mb)) (ea + eb) loc_Exact)
    as [s|s| |s m' e']; try contradiction; subst; exact I.
Qed.

Lemma nonpos_leb (x : float) :
  nonpos (Prim2SF x) -> PrimFloat.leb x 0%float = true.
Proof.
  intros H. rewrite leb_spec, B64.Prim2SF_zero.
  destruct (Prim2SF x) as [s|[|]| |[|] m e]; try contradiction; reflexivity.
Qed.

Local Abbreviation at_most_one := SF_at_most_one.

(** Rounding a value below one gives at most one. *)
Lemma binary_round_aux_at_most_one (m e : Z) (l : location) :
  0 <= m -> e <= fexp (digits m + e) -> digits m + e <= 0 ->
  at_most_one (binary_round_aux prec emax false m e l).
Proof.
  intros Hm He Hk. unfold binary_round_aux.
  pose proof (B64.shr_fexp_spec m e l Hm He) as [Hm0 He1].
  destruct (shr_fexp prec emax m e l) as [mrs' e1]. cbn [fst snd] in Hm0, He1.
  set (m1 := round_nearest_even (shr_m mrs') (loc_of_shr_record mrs')).
  pose proof (B64.round_nearest_even_bounds (shr_m mrs') (loc_of_shr_record mrs'))
    as Hm1. fold m1 in Hm1.
  set (k := digits m + e) in *.
  set (n := fexp k - e) in *.
  assert (Hn : 0 <= n) by (unfold n; lia).
  assert (Hfk : e1 = Z.max (k - 53) (-1074)) by (rewrite He1; apply B64.fexp_eq).
  (* the shifted mantissa: its width, or zero *)
  assert (Hm0' : (0 < shr_m mrs' /\ digits (shr_m mrs') = k - e1 /\ -1074 < k)
                 \/ shr_m mrs' = 0).
  { destruct (Z.eq_dec m 0) as [->|Hnz].
    - right. rewrite Hm0. apply Z.div_0_l. apply Z.pow_nonzero; lia.
    - assert (Hpos : 0 < m) by lia.
      destruct (Z_lt_le_dec n (digits m)) as [Hlt|Hge].
      + left. destruct (B64.digits_shift m n Hpos Hn Hlt) as [Hp Hd].
        rewrite Hm0. split; [exact Hp|]. rewrite Hd. unfold n, k in *.
        rewrite B64.fexp_eq in Hlt. split; lia.
      + right. rewrite Hm0. apply B64.shift_out; assumption. }
  (* the rounded mantissa: its magnitude, and when it reaches the next one *)
  assert (Hk1 : m1 = 0 \/
                (0 < m1 /\ digits m1 + e1 <= k /\ e1 <= fexp (digits m1 + e1)) \/
                (0 < m1 /\ digits m1 + e1 <= -1073 /\ e1 = -1074) \/
                (m1 = 2 ^ (k - e1) /\ digits m1 + e1 = k + 1 /\ -1074 < k)).
  { destruct Hm0' as [[Hpos [Hd Hkn]]|Hz].
    - assert (Hc : m1 = shr_m mrs' \/ m1 = shr_m mrs' + 1) by lia.
      destruct Hc as [->| ->].
      + right. left. split; [exact Hpos|]. split; [lia|].
        rewrite B64.fexp_eq. lia.
      + destruct (B64.digits_succ (shr_m mrs') Hpos) as [E|[E Ep]].
        * right. left. split; [lia|]. split; [lia|]. rewrite B64.fexp_eq. lia.
        * right. right. right. rewrite Ep, <- Hd. split; [reflexivity|].
          rewrite <- Ep. split; [lia|exact Hkn].
    - assert (Hc : m1 = 0 \/ m1 = 1) by lia.
      destruct Hc as [->| ->]; [left; reflexivity|].
      destruct (Z_lt_le_dec (-1074) k) as [Hkn|Hkn].
      + (* a mantissa of magnitude above emin is not shifted out *)
        exfalso. destruct (Z.eq_dec m 0) as [E0|E0].
        * subst m. unfold k in *. cbn [digits] in *.
          rewrite B64.fexp_eq in He. lia.
        * assert (Hlt : n < digits m)
            by (unfold n, k in *; rewrite B64.fexp_eq; lia).
          destruct (B64.digits_shift m n ltac:(lia) Hn Hlt) as [Hp _].
          rewrite <- Hm0 in Hp. lia.
      + right. right. left. split; [lia|]. cbn [digits digits2_pos]. lia. }
  destruct Hk1 as [Hz|[[Hpos [Hle He2]]|[[Hpos [Hle He2]]|[Hpow [Hmag Hkn]]]]].
  - (* zero *)
    assert (He2 : e1 <= fexp (digits 0 + e1)).
    { cbn [digits]. rewrite B64.fexp_eq.
      destruct Hm0' as [[Hp _]|_]; [lia|].
      destruct (Z.eq_dec m 0) as [E0|E0].
      - subst m. unfold k in *. cbn [digits] in *. rewrite B64.fexp_eq in He. lia.
      - assert (Hge : digits m <= n).
        { destruct (Z_lt_le_dec n (digits m)) as [Hlt|Hge]; [|exact Hge].
          destruct (B64.digits_shift m n ltac:(lia) Hn Hlt) as [Hp _].
          rewrite <- Hm0 in Hp. lia. }
        unfold n, k in *. rewrite B64.fexp_eq in Hge. lia. }
    rewrite Hz in *.
    pose proof (B64.shr_fexp_spec 0 e1 loc_Exact ltac:(lia) He2) as [Hmr _].
    destruct (shr_fexp prec emax 0 e1 loc_Exact) as [mrs'' e2]. cbn [fst] in Hmr.
    rewrite Z.div_0_l in Hmr by (apply Z.pow_nonzero; lia).
    rewrite Hmr. exact I.
  - (* no carry *)
    pose proof (B64.shr_fexp_spec m1 e1 loc_Exact ltac:(lia) He2) as [Hmr Her].
    destruct (shr_fexp prec emax m1 e1 loc_Exact) as [mrs'' e2].
    cbn [fst snd] in Hmr, Her. rewrite B64.fexp_eq in Her, He2.
    destruct (shr_m mrs'') as [|mr|mr] eqn:Emr.
    + exact I.
    + destruct (e2 <=? emax - prec) eqn:Hleb.
      * left. lia.
      * apply Z.leb_gt in Hleb. change (emax - prec) with 971 in Hleb. lia.
    + pose proof (Z.div_pos m1 (2 ^ (Z.max (digits m1 + e1 - 53) (-1074) - e1))
                    ltac:(lia) ltac:(apply Z.pow_pos_nonneg; lia)).
      rewrite B64.fexp_eq in Hmr. lia.
  - (* the smallest subnormal *)
    assert (He2' : e1 <= fexp (digits m1 + e1)) by (rewrite B64.fexp_eq; lia).
    pose proof (B64.shr_fexp_spec m1 e1 loc_Exact ltac:(lia) He2') as [Hmr Her].
    destruct (shr_fexp prec emax m1 e1 loc_Exact) as [mrs'' e2].
    cbn [fst snd] in Hmr, Her. rewrite B64.fexp_eq in Her.
    destruct (shr_m mrs'') as [|mr|mr] eqn:Emr.
    + exact I.
    + destruct (e2 <=? emax - prec) eqn:Hleb.
      * left. lia.
      * apply Z.leb_gt in Hleb. change (emax - prec) with 971 in Hleb. lia.
    + pose proof (Z.div_pos m1 (2 ^ (fexp (digits m1 + e1) - e1))
                    ltac:(lia) ltac:(apply Z.pow_pos_nonneg; rewrite ?B64.fexp_eq; lia)).
      lia.
  - (* a carry into the next power of two *)
    assert (Hpos : 0 < m1) by (rewrite Hpow; apply Z.pow_pos_nonneg; lia).
    assert (He2 : e1 <= fexp (digits m1 + e1)) by (rewrite B64.fexp_eq; lia).
    pose proof (B64.shr_fexp_spec m1 e1 loc_Exact ltac:(lia) He2) as [Hmr Her].
    destruct (shr_fexp prec emax m1 e1 loc_Exact) as [mrs'' e2].
    cbn [fst snd] in Hmr, Her. rewrite B64.fexp_eq in Her, Hmr.
    destruct (Z_lt_le_dec k 0) as [Hneg|Hzero].
    + destruct (shr_m mrs'') as [|mr|mr] eqn:Emr.
      * exact I.
      * destruct (e2 <=? emax - prec) eqn:Hleb.
        -- left. lia.
        -- apply Z.leb_gt in Hleb. change (emax - prec) with 971 in Hleb. lia.
      * pose proof (Z.div_pos m1 (2 ^ (Z.max (digits m1 + e1 - 53) (-1074) - e1))
                      ltac:(lia) ltac:(apply Z.pow_pos_nonneg; lia)). lia.
    + assert (Hk0 : k = 0) by lia.
      assert (E1 : e1 = -53) by lia.
      assert (E2 : e2 = -52) by lia.
      assert (Em1 : m1 = 2 ^ 53) by (rewrite Hpow, Hk0, E1; reflexivity).
      assert (Emr : shr_m mrs'' = 2 ^ 52).
      { rewrite Hmr. replace (Z.max (digits m1 + e1 - 53) (-1074) - e1) with 1 by lia.
        rewrite Em1. reflexivity. }
      rewrite Emr. change (2 ^ 52) with (Z.pos 4503599627370496).
      cbv iota. rewrite E2. cbn. right. split; [reflexivity|lia].
Qed.

(** The quotient handed to the rounding when the dividend is below the
    divisor. *)
Lemma SFdiv_core_binary_lt (m1 m2 : positive) (e1 e2 q e' : Z) (l : location) :
  SFdiv_core_binary prec emax (Zpos m1) e1 (Zpos m2) e2 = (q, e', l) ->
  e1 <= e2 -> Z.pos m1 < Z.pos m2 * 2 ^ (e2 - e1) ->
  0 <= q /\ e' <= fexp (digits q + e') /\ digits q + e' <= 0.
Proof.
  intros H He Hlt.
  pose proof H as H0.
  unfold SFdiv_core_binary in H.
  set (ee := Z.min (fexp (digits (Z.pos m1) + e1 - (digits (Z.pos m2) + e2)))
               (e1 - e2)) in *.
  set (s := e1 - e2 - ee) in *.
  set (m' := match s with
             | 0 => Z.pos m1
             | Z.pos _ => Z.shiftl (Z.pos m1) s
             | Z.neg _ => 0
             end) in *.
  assert (Hee : ee <= e1 - e2) by (unfold ee; lia).
  assert (Hs : 0 <= s) by (unfold s; lia).
  assert (Hm' : m' = Z.pos m1 * 2 ^ s).
  { unfold m'. destruct s as [|p|p] eqn:Es; [lia| |lia].
    apply Z.shiftl_mul_pow2. lia. }
  destruct (Z.div_eucl m' (Z.pos m2)) as [q0 r0] eqn:E.
  assert (Hq : q0 = m' / Z.pos m2) by (unfold Z.div; rewrite E; reflexivity).
  injection H as <- <- _. clear E r0.
  assert (Hp : 0 < 2 ^ s) by (apply Z.pow_pos_nonneg; lia).
  assert (Hq0 : 0 <= q0).
  { rewrite Hq. apply Z.div_pos; [rewrite Hm'|]; lia. }
  assert (Hqhi : q0 < 2 ^ (- ee)).
  { rewrite Hq. apply Z.div_lt_upper_bound; [lia|].
    replace (- ee) with (e2 - e1 + s) by (unfold s; lia).
    rewrite Z.pow_add_r by lia. rewrite Hm', Z.mul_assoc.
    apply Z.mul_lt_mono_pos_r; [exact Hp|exact Hlt]. }
  assert (Hmag : digits q0 + ee <= 0).
  { destruct (Z.eq_dec q0 0) as [->|Hnz]; [cbn [digits]; lia|].
    destruct (B64.digits_bounds q0 ltac:(lia)) as [Hd [Hlo _]].
    destruct (Z_le_gt_dec (digits q0 + ee) 0) as [Hc|Hc]; [exact Hc|exfalso].
    assert (2 ^ (- ee) <= 2 ^ (digits q0 - 1)) by (apply Z.pow_le_mono_r; lia).
    lia. }
  split; [exact Hq0|]. split; [|exact Hmag].
  destruct (Z_lt_le_dec (-1074) ee) as [Hc|Hc]; [|rewrite B64.fexp_eq; lia].
  assert (HK : -1021 <= digits (Z.pos m1) + e1 - (digits (Z.pos m2) + e2))
    by (unfold ee in Hc; rewrite B64.fexp_eq in Hc; lia).
  destruct (B64.SFdiv_core_binary_spec _ _ _ _ _ _ _ H0 HK) as [_ [Hc' _]].
  exact Hc'.
Qed.

(** A float that is zero or positive, divided by a positive finite float that
    is not below it, is at most one. *)
Lemma div_le_one (x y : float) :
  PrimFloat.leb 0%float x = true ->
  PrimFloat.ltb 0%float y = true -> PrimFloat.ltb y infinity = true ->
  PrimFloat.leb x y = true ->
  at_most_one (Prim2SF (x / y)%float).
Proof.
  intros Hx Hy Hfin Hle.
  destruct (B64.positive_finite_cases y Hy Hfin) as [my [ey Ey]].
  rewrite div_spec, Ey. unfold SF64div.
  rewrite leb_spec, Ey in Hle. rewrite leb_spec, B64.Prim2SF_zero in Hx.
  destruct (Prim2SF x) as [s|[|]| |[|] mx ex] eqn:Ex; try discriminate.
  - exact I.
  - apply SFleb_finite in Hle.
    destruct (valid_finite _ _ _ _ Ex) as [Hcx _].
    destruct (valid_finite _ _ _ _ Ey) as [Hcy _].
    destruct (B64.digits_bounds (Z.pos mx) ltac:(lia)) as [Hdx [Hlox Hhix]].
    destruct (B64.digits_bounds (Z.pos my) ltac:(lia)) as [Hdy [Hloy Hhiy]].
    destruct (Z.eq_dec ex ey) as [Ee|Ee].
    + subst ey. destruct (Z.eq_dec (Z.pos mx) (Z.pos my)) as [Em|Em].
      * injection Em as ->. rewrite B64.SFdiv_self. right. split; [reflexivity|].
        change (2 ^ 52) with 4503599627370496. lia.
      * cbn [SFdiv xorb].
        destruct (SFdiv_core_binary prec emax (Z.pos mx) ex (Z.pos my) ex)
          as [[q e'] l] eqn:E.
        destruct (SFdiv_core_binary_lt _ _ _ _ _ _ _ E ltac:(lia))
          as [Hq [He' Hmag]].
        { replace (ex - ex) with 0 by lia. change (2 ^ 0) with 1. lia. }
        apply binary_round_aux_at_most_one; assumption.
    + cbn [SFdiv xorb].
      destruct (SFdiv_core_binary prec emax (Z.pos mx) ex (Z.pos my) ey)
        as [[q e'] l] eqn:E.
      destruct (SFdiv_core_binary_lt _ _ _ _ _ _ _ E ltac:(lia))
        as [Hq [He' Hmag]].
      { assert (Hdy53 : digits (Z.pos my) = 53) by lia.
        assert (Hdx53 : digits (Z.pos mx) <= 53) by lia.
        rewrite Hdy53 in Hloy.
        assert (Z.pos mx < 2 ^ 53).
        { apply Z.lt_le_trans with (1 := Hhix). apply Z.pow_le_mono_r; lia. }
        assert (2 ^ 1 <= 2 ^ (ey - ex)) by (apply Z.pow_le_mono_r; lia).
        change (2 ^ (53 - 1)) with 4503599627370496 in Hloy.
        change (2 ^ 53) with 9007199254740992 in *. change (2 ^ 1) with 2 in *.
        nia. }
      apply binary_round_aux_at_most_one; assumption.
Qed.

Lemma shl_align_fst_shift (m : positive) (e e' : Z) :
  e' < e -> Z.pos (fst (shl_align m e e')) = Z.pos m * 2 ^ (e - e').
Proof.
  intros Hlt. unfold shl_align.
  destruct (e' - e) as [|d|d] eqn:E; try lia. cbn [fst].
  replace (e - e') with (Z.pos d) by lia. clear.
  induction d as [|d IH] using Pos.peano_ind.
  - cbn [Pos.iter]. rewrite Pos2Z.inj_xO. change (2 ^ 1) with 2. lia.
  - rewrite Pos.iter_succ, Pos2Z.inj_xO, IH, Pos2Z.inj_succ, Z.pow_succ_r by lia.
    lia.
Qed.

(** A float that is at most one, less one, is not positive. *)
Lemma sub_one_nonpos (c : float) :
  at_most_one (Prim2SF c) -> nonpos (Prim2SF (c - 1)%float).
Proof.
  intros Hc. rewrite sub_spec, Prim2SF_one. unfold SF64sub.
  destruct (Prim2SF c) as [s|[|]| |[|] m e] eqn:Ec; try contradiction.
  - destruct s; exact I.
  - cbn [SF_at_most_one] in Hc.
    destruct (valid_finite _ _ _ _ Ec) as [Hcan _].
    destruct (B64.digits_bounds (Z.pos m) ltac:(lia)) as [_ [_ Hhi]].
    assert (Hm : Z.pos m < 2 ^ 53).
    { apply Z.lt_le_trans with (1 := Hhi). apply Z.pow_le_mono_r; lia. }
    cbn [SFsub cond_Zopp].
    assert (Hez : Z.min e (-52) = e) by lia. rewrite Hez.
    assert (HA : Z.pos (fst (shl_align m e e)) = Z.pos m).
    { unfold shl_align. rewrite Z.sub_diag. reflexivity. }
    assert (HB : Z.pos m <= Z.pos (fst (shl_align 4503599627370496 (-52) e))).
    { destruct Hc as [Hlt|[-> Hle]].
      - rewrite shl_align_fst_shift by exact Hlt.
        assert (2 ^ 1 <= 2 ^ (-52 - e)) by (apply Z.pow_le_mono_r; lia).
        change (2 ^ 53) with 9007199254740992 in Hm. change (2 ^ 1) with 2 in *.
        nia.
      - exact Hle. }
    rewrite HA.
    destruct (Z.pos m - Z.pos (fst (shl_align 4503599627370496 (-52) e)))
      as [|d|d] eqn:D; cbn [binary_normalize].
    + exact I.
    + lia.
    + apply binary_round_nonpos.
Qed.

End B64Sign.

Lemma yearly_factor_7d_finite :
  Prim2SF (365 / 7)%float = S754_finite false 7338454749956389 (-47).
Proof. vm_compute. reflexivity. Qed.

Lemma Prim2SF_100 : Prim2SF 100%float = S754_finite false 7036874417766400 (-46).
Proof. vm_compute. reflexivity. Qed.

(** X14.  When the price per share has not gone down (two positive finite
    samples, the present one not below the past one) and the window between
    the two converted timestamps is positive, the APR computation returns
    figures none of which is negative or a NaN: the change in percent and both
    APR figures are at least zero. *)
Theorem main_apr_not_negative (pps_now pps_past : float)
  (latest_ts past_ts_actual : Z) (latest_dt past_dt_actual : datetime) :
  PrimFloat.ltb 0%float pps_past = true ->
  PrimFloat.leb pps_past pps_now = true ->
  PrimFloat.ltb pps_now infinity = true ->
  to_datetime latest_ts = Ok latest_dt ->
  to_datetime past_ts_actual = Ok past_dt_actual ->
  0 < latest_ts - past_ts_actual ->
  exists f,
    main_apr pps_now pps_past latest_ts past_ts_actual = Ok f /\
    PrimFloat.leb 0%float (change_pct f) = true /\
    PrimFloat.leb 0%float (apr_7d_window f) = true /\
    PrimFloat.leb 0%float (apr_real f) = true.
Proof.
  intros Hpast Hle Hfin H1 H2 Hpos.
  pose proof (elapsed_bound _ _ _ _ H1 H2) as Hlt.
  exists (Spec.APRCalculator pps_now pps_past LOOKBACK_DAYS
            (latest_ts - past_ts_actual)).
  split; [apply main_apr_eval; try assumption;
          apply B64.nonzero_of_positive; exact Hpast|].
  pose proof (B64Sign.sub_one_nonneg _
                (B64Sign.div_ge_one pps_now pps_past Hpast Hfin Hle)) as Hc.
  destruct (days_interval_finite _ Hpos Hlt) as [m [e [_ [Hsf Hmag]]]].
  destruct (B64.div_365 _ m e Hsf ltac:(lia)) as [m' [e' Hy]].
  unfold Spec.APRCalculator, Spec.apr_nominal, Spec.apr_actual,
    Spec.pct_change, Spec.ratio_change, Spec.elapsed_days_actual, LOOKBACK_DAYS.
  cbn [change_pct apr_7d_window apr_real]. rewrite of_int_7.
  split; [|split]; apply B64Sign.nonneg_leb; rewrite !mul_spec.
  - exact (B64Sign.mul_nonneg _ _ _ _ Hc Prim2SF_100).
  - refine (B64Sign.mul_nonneg _ _ _ _ _ Prim2SF_100).
    exact (B64Sign.mul_nonneg _ _ _ _ Hc yearly_factor_7d_finite).
  - refine (B64Sign.mul_nonneg _ _ _ _ _ Prim2SF_100).
    exact (B64Sign.mul_nonneg _ _ _ _ Hc Hy).
Qed.

Lemma main_apr_not_negative_witness :
  PrimFloat.ltb 0%float 1.5%float = true /\
  PrimFloat.leb 1.5%float 2%float = true /\
  PrimFloat.ltb 2%float infinity = true /\
  to_datetime 190 = Ok {| unix_seconds := 190 |} /\
  to_datetime 150 = Ok {| unix_seconds := 150 |} /\
  0 < 190 - 150 /\
  exists f,
    main_apr 2%float 1.5%float 190 150 = Ok f /\
    PrimFloat.leb 0%float (change_pct f) = true /\
    PrimFloat.leb 0%float (apr_7d_window f) = true /\
    PrimFloat.leb 0%float (apr_real f) = true.
Proof.
  split; [reflexivity|]. split; [reflexivity|]. split; [reflexivity|].
  split; [reflexivity|]. split; [reflexivity|]. split; [lia|].
  apply (main_apr_not_negative 2%float 1.5%float 190 150
           {| unix_seconds := 190 |} {| unix_seconds := 150 |});
    first [reflexivity | lia].
Defined.

(** X15.  When the price per share has not gone up (a past sample that is
    positive and finite, a present one between zero and it) and the window
    between the two converted timestamps is positive, the APR computation
    returns figures none of which is positive or a NaN: the change in percent
    and both APR figures are at most zero. *)
Theorem main_apr_not_positive (pps_now pps_past : float)
  (latest_ts past_ts_actual : Z) (latest_dt past_dt_actual : datetime) :
  PrimFloat.leb 0%float pps_now = true ->
  PrimFloat.leb pps_now pps_past = true ->
  PrimFloat.ltb 0%float pps_past = true ->
  PrimFloat.ltb pps_past infinity = true ->
  to_datetime latest_ts = Ok latest_dt ->
  to_datetime past_ts_actual = Ok past_dt_actual ->
  0 < latest_ts - past_ts_actual ->
  exists f,
    main_apr pps_now pps_past latest_ts past_ts_actual = Ok f /\
    PrimFloat.leb (change_pct f) 0%float = true /\
    PrimFloat.leb (apr_7d_window f) 0%float = true /\
    PrimFloat.leb (apr_real f) 0%float = true.
Proof.
  intros Hnow Hle Hpast Hfin H1 H2 Hpos.
  pose proof (elapsed_bound _ _ _ _ H1 H2) as Hlt.
  exists (Spec.APRCalculator pps_now pps_past LOOKBACK_DAYS
            (latest_ts - past_ts_actual)).
  split; [apply main_apr_eval; try assumption;
          apply B64.nonzero_of_positive; exact Hpast|].
  pose proof (B64Sign.sub_one_nonpos _
                (B64Sign.div_le_one pps_now pps_past Hnow Hpast Hfin Hle)) as Hc.
  destruct (days_interval_finite _ Hpos Hlt) as [m [e [_ [Hsf Hmag]]]].
  destruct (B64.div_365 _ m e Hsf ltac:(lia)) as [m' [e' Hy]].
  unfold Spec.APRCalculator, Spec.apr_nominal, Spec.apr_actual,
    Spec.pct_change, Spec.ratio_change, Spec.elapsed_days_actual, LOOKBACK_DAYS.
  cbn [change_pct apr_7d_window apr_real]. rewrite of_int_7.
  split; [|split]; apply B64Sign.nonpos_leb; rewrite !mul_spec.
  - exact (B64Sign.mul_nonpos _ _ _ _ Hc Prim2SF_100).
  - refine (B64Sign.mul_nonpos _ _ _ _ _ Prim2SF_100).
    exact (B64Sign.mul_nonpos _ _ _ _ Hc yearly_factor_7d_finite).
  - refine (B64Sign.mul_nonpos _ _ _ _ _ Prim2SF_100).
    exact (B64Sign.mul_nonpos _ _ _ _ Hc Hy).
Qed.

Lemma main_apr_not_positive_witness :
  PrimFloat.leb 0%float 1.5%float = true /\
  PrimFloat.leb 1.5%float 2%float = true /\
  PrimFloat.ltb 0%float 2%float = true /\
  PrimFloat.ltb 2%float infinity = true /\
  to_datetime 190 = Ok {| unix_seconds := 190 |} /\
  to_datetime 150 = Ok {| unix_seconds := 150 |} /\
  0 < 190 - 150 /\
  exists f,
    main_apr 1.5%float 2%float 190 150 = Ok f /\
    PrimFloat.leb (change_pct f) 0%float = true /\
    PrimFloat.leb (apr_7d_window f) 0%float = true /\
    PrimFloat.leb (apr_real f) 0%float = true.
Proof.
  split; [reflexivity|]. split; [reflexivity|]. split; [reflexivity|].
  split; [reflexivity|]. split; [reflexivity|]. split; [reflexivity|].
  split; [lia|].
  apply (main_apr_not_positive 1.5%float 2%float 190 150
           {| unix_seconds := 190 |} {| unix_seconds := 150 |});
    first [reflexivity | lia].
Defined.

(** ** A whole run, from a healthy node and vault to the report *)

Lemma get_pps_at_block_funded (contract : Contract) (latest n : Z) :
  funded contract latest -> 1 <= n <= latest ->
  exists a s,
    totalAssets contract n = Some a /\ totalSupply contract n = Some s /\
    get_pps_at_block contract n = Ok (Spec.ratio a s) /\
    PrimFloat.eqb (Spec.ratio a s) 0%float = false.
Proof.
  intros Hf Hn. destruct (Hf n Hn) as [a [s [Ha [Hs [Hua [Hus [Hap Hsp]]]]]]].
  exists a, s. split; [exact Ha|]. split; [exact Hs|].
  assert (Hnz : s <> 0) by lia. split.
  - unfold get_pps_at_block. rewrite Ha, Hs. cbn [call bind].
    assert (E : (s =? 0) = false) by (apply Z.eqb_neq; exact Hnz).
    rewrite E, (int_truediv_uint256 _ _ Hua Hus Hnz). reflexivity.
  - destruct (pps_sample_finite _ _ Hua Hus Hnz) as [H0|[Hpos _]].
    + exfalso. destruct Hua as [_ Ha1]. destruct Hus as [_ Hs1].
      assert (Hsd : B64.digits s <= 256) by (apply B64.digits_le_of_lt_pow2; lia).
      destruct (B64.int_truediv_pos a s Hap Hsp ltac:(lia))
        as [[Ho _]|[m [e [_ [Hsf _]]]]].
      * rewrite (int_truediv_uint256 a s) in Ho;
          [discriminate|split; lia|split; lia|exact Hnz].
      * rewrite H0 in Hsf. discriminate.
    + apply B64.nonzero_of_positive. exact Hpos.
Qed.

(** X16.  On a connected node whose ["latest"] block is the block at the
    chain height, with timestamps that do not decrease, lie in the years
    [datetime] has (the target included) and have a block at or after the
    target that is earlier than the latest one, and for a vault with assets
    and shares at every block, [main] ends with a report: its past block is
    the earliest block at or after the target, its samples are the two rounded
    quotients, and its figures are those of the formulas for the elapsed time
    between the two blocks. *)
Theorem main_reports (w3 : Web3) (stolas : Contract) (ts : Z -> Z) (b : Z) :
  is_connected w3 = true ->
  serves w3 ts ->
  non_decreasing ts (block_number w3) ->
  tip_consistent w3 ts ->
  funded stolas (block_number w3) ->
  DATETIME_MIN + LOOKBACK_SECONDS <= ts 1 ->
  ts (block_number w3) <= DATETIME_MAX ->
  1 <= b < block_number w3 ->
  ts (block_number w3) - LOOKBACK_SECONDS <= ts b < ts (block_number w3) ->
  exists report past a_now s_now a_past s_past,
    main w3 stolas = Ok report /\
    latest_number report = block_number w3 /\
    target_ts report = ts (block_number w3) - LOOKBACK_SECONDS /\
    past_block_num report = past /\
    1 <= past <= b /\
    target_ts report <= ts past /\
    (forall b', 1 <= b' -> b' < past -> ts b' < target_ts report) /\
    past_ts_actual report = ts past /\
    totalAssets stolas (block_number w3) = Some a_now /\
    totalSupply stolas (block_number w3) = Some s_now /\
    totalAssets stolas past = Some a_past /\
    totalSupply stolas past = Some s_past /\
    pps_now report = Spec.ratio a_now s_now /\
    pps_past report = Spec.ratio a_past s_past /\
    figures report =
      Spec.APRCalculator (pps_now report) (pps_past report) LOOKBACK_DAYS
        (ts (block_number w3) - ts past).
Proof.
  intros Hconn Hs Hmono [tip [Htip [Hnum Htts]]] Hfund Hmin Hmax Hb Hbts.
  remember (block_number w3) as latest eqn:Hlatest.
  assert (Hlook : LOOKBACK_SECONDS = 604800) by reflexivity.
  remember (ts latest - LOOKBACK_SECONDS) as target eqn:Htarget.
  (* the locator *)
  assert (Hloc : exists past,
            find_block_by_timestamp w3 target = Ok past /\
            1 <= past <= b /\ target <= ts past /\
            (forall b', 1 <= b' -> b' < past -> ts b' < target)).
  { unfold find_block_by_timestamp, find_block_run. cbn zeta. rewrite <- Hlatest.
    destruct (search_loop_inv w3 ts target Hs (Z.to_nat latest) 1 latest latest)
      as [r [Hr Hcases]]; try lia.
    exists r. split; [exact Hr|]. rewrite <- Hlatest in Hcases.
    destruct Hcases as [[_ [H0|Hlt]]|[Hrange [Hge Hprev]]]; try lia.
    assert (Hbelow : forall b', 1 <= b' -> b' < r -> ts b' < target).
    { intros b' H1 H2. destruct Hprev as [->|Hprev]; [lia|].
      apply Z.le_lt_trans with (ts (r - 1)); [|exact Hprev].
      apply Hmono; lia. }
    split; [|split; [exact Hge|exact Hbelow]].
    split; [lia|]. destruct (Z_le_gt_dec r b) as [Hc|Hc]; [exact Hc|].
    specialize (Hbelow b ltac:(lia) ltac:(lia)). lia. }
  destruct Hloc as [past [Hfind [Hpast [Hge Hbelow]]]].
  destruct (Hs past ltac:(lia)) as [pb [Hpb Hpbts]].
  (* the timestamps *)
  assert (Hord : ts 1 <= ts past /\ ts past <= ts b)
    by (split; apply Hmono; lia).
  assert (Hdt : forall t, DATETIME_MIN <= t <= DATETIME_MAX ->
                  to_datetime t = Ok {| unix_seconds := t |}).
  { intros t [H1 H2]. unfold to_datetime, datetime_fromtimestamp_utc.
    apply Z.leb_le in H1, H2. rewrite H1, H2. reflexivity. }
  assert (Hpos : 0 <= LOOKBACK_SECONDS) by (rewrite Hlook; lia).
  (* the samples *)
  destruct (get_pps_at_block_funded stolas latest latest Hfund ltac:(lia))
    as [a_now [s_now [Han [Hsn [Hpn _]]]]].
  destruct (get_pps_at_block_funded stolas latest past Hfund ltac:(lia))
    as [a_past [s_past [Hap [Hsp [Hpp Hppnz]]]]].
  exists {| latest_number := latest;
            target_ts := target;
            past_block_num := past;
            past_ts_actual := ts past;
            pps_now := Spec.ratio a_now s_now;
            pps_past := Spec.ratio a_past s_past;
            figures :=
              Spec.APRCalculator (Spec.ratio a_now s_now)
                (Spec.ratio a_past s_past) LOOKBACK_DAYS (ts latest - ts past) |},
    past, a_now, s_now, a_past, s_past.
  cbn [latest_number target_ts past_block_num past_ts_actual pps_now pps_past
       figures].
  split.
  - unfold main. rewrite Hconn. cbn [negb]. unfold get_block.
    rewrite Htip. cbn [call bind]. rewrite Htts, Hnum, <- Htarget.
    rewrite (Hdt (ts latest)) by lia. cbn [bind].
    rewrite (Hdt target) by lia. cbn [bind].
    rewrite Hfind. cbn [bind]. rewrite Hpb. cbn [call bind]. rewrite Hpbts.
    rewrite (Hdt (ts past)) by lia. cbn [bind].
    rewrite Hpn, Hpp. cbn [bind].
    rewrite main_apr_eval; [reflexivity|exact Hppnz|lia|].
    apply (elapsed_bound _ _ {| unix_seconds := ts latest |}
             {| unix_seconds := ts past |}); apply Hdt; lia.
  - repeat (split; [first [reflexivity | assumption]|]). reflexivity.
Qed.

Lemma growing_funded : funded Runs.growing 10.
Proof.
  intros n Hn. exists (1000 + 10 * Z.max 0 (Z.min n 1000)), 1000.
  assert (H14 : 2 ^ 14 <= 2 ^ 256) by (apply Z.pow_le_mono_r; lia).
  change (2 ^ 14) with 16384 in H14.
  split; [reflexivity|]. split; [reflexivity|].
  unfold uint256. repeat split; lia.
Qed.

Lemma main_reports_witness :
  is_connected Runs.daily = true /\
  serves Runs.daily Runs.daily_timestamps /\
  non_decreasing Runs.daily_timestamps (block_number Runs.daily) /\
  tip_consistent Runs.daily Runs.daily_timestamps /\
  funded Runs.growing (block_number Runs.daily) /\
  DATETIME_MIN + LOOKBACK_SECONDS <= Runs.daily_timestamps 1 /\
  Runs.daily_timestamps (block_number Runs.daily) <= DATETIME_MAX /\
  1 <= 5 < block_number Runs.daily /\
  Runs.daily_timestamps (block_number Runs.daily) - LOOKBACK_SECONDS
    <= Runs.daily_timestamps 5
    < Runs.daily_timestamps (block_number Runs.daily) /\
  exists report past a_now s_now a_past s_past,
    main Runs.daily Runs.growing = Ok report /\
    latest_number report = block_number Runs.daily /\
    target_ts report
    = Runs.daily_timestamps (block_number Runs.daily) - LOOKBACK_SECONDS /\
    past_block_num report = past /\
    1 <= past <= 5 /\
    target_ts report <= Runs.daily_timestamps past /\
    (forall b', 1 <= b' -> b' < past ->
                Runs.daily_timestamps b' < target_ts report) /\
    past_ts_actual report = Runs.daily_timestamps past /\
    totalAssets Runs.growing (block_number Runs.daily) = Some a_now /\
    totalSupply Runs.growing (block_number Runs.daily) = Some s_now /\
    totalAssets Runs.growing past = Some a_past /\
    totalSupply Runs.growing past = Some s_past /\
    pps_now report = Spec.ratio a_now s_now /\
    pps_past report = Spec.ratio a_past s_past /\
    figures report =
      Spec.APRCalculator (pps_now report) (pps_past report) LOOKBACK_DAYS
        (Runs.daily_timestamps (block_number Runs.daily)
         - Runs.daily_timestamps past).
Proof.
  assert (Hb : block_number Runs.daily = 10) by reflexivity.
  assert (Hl : LOOKBACK_SECONDS = 604800) by reflexivity.
  split; [reflexivity|]. split; [exact daily_serves|].
  split; [exact daily_non_decreasing|]. split; [exact daily_tip_consistent|].
  split; [exact growing_funded|].
  split; [rewrite Hl; unfold DATETIME_MIN, Runs.daily_timestamps; lia|].
  split; [rewrite Hb; unfold DATETIME_MAX, Runs.daily_timestamps; lia|].
  split; [rewrite Hb; lia|].
  split; [rewrite Hb, Hl; unfold Runs.daily_timestamps; lia|].
  apply (main_reports Runs.daily Runs.growing Runs.daily_timestamps 5).
  - reflexivity.
  - exact daily_serves.
  - exact daily_non_decreasing.
  - exact daily_tip_consistent.
  - exact growing_funded.
  - rewrite Hl; unfold DATETIME_MIN, Runs.daily_timestamps; lia.
  - rewrite Hb; unfold DATETIME_MAX, Runs.daily_timestamps; lia.
  - rewrite Hb; lia.
  - rewrite Hb, Hl; unfold Runs.daily_timestamps; lia.
Defined.
